(** * Stock dashboard callback ([src/app.py], [update_dashboard])

    A shallow embedding of the Dash callback that fetches two daily price
    series for one ticker and derives two figures, three metric cards and
    a table from them.

    Conventions of the embedding.
    - A float64 value is the rational it denotes, or NaN
      ([float := option Q], [None] is NaN, the pandas marker of a missing
      value).  Comparisons are exact; the operations of the callback that
      round (the scaling and the division inside [round], the conversion
      of an integer to float) round their exact result to the nearest
      binary64 value, ties to even, by [binary64].  Infinities and the
      sign of zero are not represented: statements about rounded values
      are made for finite non-negative prices.
    - A string is a sequence of 8-bit characters.  [upper] is
      [str.upper()] on ASCII text; statements about the figure titles are
      made for tickers of ASCII characters.
    - A [datetime.date] and a daily pandas [Timestamp] are proleptic
      Gregorian ordinals ([date.toordinal()]), so that
      [today - timedelta(days=365)] is a subtraction.
    - A [DataFrame] is column-major: a row index, a column index (flat or
      multi-level) and one typed [Series] per column.
    - [yfinance.download] and [date.today()] are the two things the
      callback reads from the outside; they are Section variables.  Every
      call of the provider is appended to a log threaded by the monad
      [M], and exceptions are values of [Result]. *)

From Stdlib Require Import String Ascii List ZArith QArith Qround Qabs Qpower Lia Lqa Bool.
From Stdlib Require PrimFloat FloatOps SpecFloat Uint63.
Import ListNotations.

Local Close Scope Q_scope.
Local Open Scope string_scope.

(* ---------------------------------------------------------------------- *)
(** ** Exceptions and results *)

Inductive exn : Type :=
| ValueError (msg : string)
| KeyError (key : string)
| IndexError (msg : string)
| TypeError (msg : string)
| NotASeries (key : string)
    (* AttributeError/TypeError of a Series method called on the DataFrame
       that [df[key]] yields when [key] selects several columns *)
| ProviderError (msg : string).
    (* any exception raised inside [yf.download] *)

(** [str(e)], as used by the f-strings of the except branch. *)
Definition str_exn (e : exn) : string :=
  match e with
  | ValueError msg => msg
  | KeyError key => "'" ++ key ++ "'"
  | IndexError msg => msg
  | TypeError msg => msg
  | NotASeries key => "'DataFrame' object has no attribute 'tolist'"
  | ProviderError msg => msg
  end.

Inductive Result (A : Type) : Type :=
| Ok (a : A)
| Raise (e : exn).
Arguments Ok {A} a.
Arguments Raise {A} e.

Definition rbind {A B} (r : Result A) (k : A -> Result B) : Result B :=
  match r with
  | Ok a => k a
  | Raise e => Raise e
  end.

Definition rmap {A B} (f : A -> B) (r : Result A) : Result B :=
  rbind r (fun a => Ok (f a)).

Declare Scope result_scope.
Delimit Scope result_scope with result.
Notation "x <- c ;; k" := (rbind c (fun x => k))
  (at level 61, c at next level, right associativity) : result_scope.

(* ---------------------------------------------------------------------- *)
(** ** Strings *)

(** [str.upper()] on ASCII text: a..z become A..Z, every other ASCII
    character is kept.  (Characters above 127 are kept too, which is not
    what Python does with them; see [ascii_only].) *)
Definition upper_ascii (c : ascii) : ascii :=
  let n := nat_of_ascii c in
  if (97 <=? n)%nat && (n <=? 122)%nat then ascii_of_nat (n - 32) else c.

Fixpoint upper (s : string) : string :=
  match s with
  | EmptyString => EmptyString
  | String c s' => String (upper_ascii c) (upper s')
  end.

(** The text has ASCII characters only. *)
Fixpoint ascii_only (s : string) : bool :=
  match s with
  | EmptyString => true
  | String c s' => (nat_of_ascii c <? 128)%nat && ascii_only s'
  end.

Definition digit_char (d : Z) : ascii := ascii_of_nat (48 + Z.to_nat d).

(** The [width] low decimal digits of [n], most significant first
    (zero padded): the [%02d]/[%04d] of [strftime]. *)
Fixpoint zero_padded (width : nat) (n : Z) : string :=
  match width with
  | O => EmptyString
  | S w => zero_padded w (n / 10) ++ String (digit_char (n mod 10)) EmptyString
  end.

(* ---------------------------------------------------------------------- *)
(** ** Dates *)

(** A calendar day as its proleptic Gregorian ordinal (0001-01-01 is 1). *)
Definition date := Z.
Definition Timestamp := Z.

(** [d - timedelta(days=n)] *)
Definition minus_days (d : date) (n : Z) : date := (d - n)%Z.

(** Year, month and day of an ordinal. *)
Definition civil_of_ordinal (o : Z) : Z * Z * Z :=
  let z := (o + 305)%Z in
  let era := (z / 146097)%Z in
  let doe := (z - era * 146097)%Z in
  let yoe := ((doe - doe / 1460 + doe / 36524 - doe / 146096) / 365)%Z in
  let doy := (doe - (365 * yoe + yoe / 4 - yoe / 100))%Z in
  let mp := ((5 * doy + 2) / 153)%Z in
  let d := (doy - (153 * mp + 2) / 5 + 1)%Z in
  let m := (if (mp <? 10)%Z then mp + 3 else mp - 9)%Z in
  let y := (yoe + era * 400 + (if (m <=? 2)%Z then 1 else 0))%Z in
  (y, m, d).

(** [t.strftime("%Y-%m-%d")] *)
Definition strftime_ymd (t : Timestamp) : string :=
  let '(y, m, d) := civil_of_ordinal t in
  zero_padded 4 y ++ "-" ++ zero_padded 2 m ++ "-" ++ zero_padded 2 d.

(* ---------------------------------------------------------------------- *)
(** ** Floats *)

Definition float := option Q.
Definition NaN : float := None.

Definition isna (x : float) : bool :=
  match x with
  | None => true
  | Some _ => false
  end.

(** [numpy.rint] on an exact value: nearest integer, ties to even. *)
Definition rint (q : Q) : Z :=
  let f := Qfloor q in
  match (q - inject_Z f ?= 1 # 2)%Q with
  | Lt => f
  | Gt => (f + 1)%Z
  | Eq => if Z.even f then f else (f + 1)%Z
  end.

Definition pow10 (decimals : nat) : Q := inject_Z (10 ^ Z.of_nat decimals).

(** The exponent of the leading bit of a positive rational: the [k] with
    [2^k <= q < 2^(k+1)]. *)
Definition ilog2 (q : Q) : Z :=
  let k := (Z.log2 (Qnum q) - Z.log2 (Zpos (Qden q)))%Z in
  if Qle_bool (Qpower 2 k) q then k else (k - 1)%Z.

(** Exponent of the last bit of the smallest binary64 magnitudes. *)
Definition emin : Z := (-1074)%Z.

(** The binary64 value nearest to a rational, ties to even: the
    magnitude is scaled so that its integer part has 53 bits (fewer below
    [2^-1022]), rounded by [rint], and scaled back.  This is the rounding
    of every float64 operation whose exact result is below [2^1024];
    overflow to infinity is not represented. *)
Definition binary64 (q : Q) : Q :=
  if Qeq_bool q 0 then 0%Q
  else
    let a := Qabs q in
    let e := Z.max (ilog2 a - 52) emin in
    let m := rint (a / Qpower 2 e) in
    Qred ((if Qle_bool 0 q then 1 else -1) * (inject_Z m * Qpower 2 e)).

(** The exponent of the last kept bit of a positive magnitude, and the
    magnitude rounded at that bit: the two steps of [binary64]. *)
Definition exponent (a : Q) : Z := Z.max (ilog2 a - 52) emin.

Definition round_mag (a : Q) : Q :=
  (inject_Z (rint (a / Qpower 2 (exponent a))) * Qpower 2 (exponent a))%Q.

(** The value of a float of the kernel (its binary64 arithmetic is the
    IEEE 754 one), when finite; and the kernel float nearest to [n / d],
    for [n] and [d] below [2^63]. *)
Definition Q_of_kernel_float (f : PrimFloat.float) : float :=
  match FloatOps.Prim2SF f with
  | SpecFloat.S754_zero _ => Some 0%Q
  | SpecFloat.S754_finite s m e =>
      Some (Qred ((if s then -1 else 1) * (inject_Z (Zpos m) * Qpower 2 e)))
  | _ => None
  end.

Definition kernel_float (n d : Z) : PrimFloat.float :=
  PrimFloat.div (PrimFloat.of_uint63 (Uint63.of_Z n))
                (PrimFloat.of_uint63 (Uint63.of_Z d)).

(** [round(x, 2)] computed with the float product and quotient of the
    kernel, for a non-negative [x] below [2^61]. *)
Definition kernel_round_2 (x : PrimFloat.float) : float :=
  match Q_of_kernel_float (PrimFloat.mul x (kernel_float 100 1)) with
  | Some p =>
      Q_of_kernel_float
        (PrimFloat.div (PrimFloat.of_uint63 (Uint63.of_Z (rint p)))
                       (kernel_float 100 1))
  | None => None
  end.

(** [numpy.round(q, decimals)] on a float64, for [decimals >= 0]: the
    float64 product with [10.0**decimals], [rint], the float64 quotient by
    [10.0**decimals]. *)
Definition np_round (decimals : nat) (q : Q) : Q :=
  binary64 (inject_Z (rint (binary64 (q * binary64 (pow10 decimals))))
            / binary64 (pow10 decimals)).

Definition round_float (decimals : nat) (x : float) : float :=
  option_map (np_round decimals) x.

Definition Qmax' (a b : Q) : Q := if Qlt_le_dec a b then b else a.
Definition Qmin' (a b : Q) : Q := if Qlt_le_dec b a then b else a.

(** Reductions that skip NaN ([skipna=True]); NaN when nothing is left. *)
Fixpoint nan_reduce (op : Q -> Q -> Q) (acc : float) (xs : list float) : float :=
  match xs with
  | [] => acc
  | None :: xs' => nan_reduce op acc xs'
  | Some x :: xs' =>
      nan_reduce op (match acc with None => Some x | Some a => Some (op a x) end) xs'
  end.

Definition nanmax (xs : list float) : float := nan_reduce Qmax' NaN xs.
Definition nanmin (xs : list float) : float := nan_reduce Qmin' NaN xs.

(* ---------------------------------------------------------------------- *)
(** ** pandas: Series *)

Inductive scalar : Type :=
| SFloat (x : float)
| SInt (z : Z)
| SStamp (t : Timestamp)
| SStr (s : string).

(** A column with its dtype. *)
Inductive Series : Type :=
| Float64 (xs : list float)
| Int64 (zs : list Z)
| Datetime64 (ts : list Timestamp)
| Object (ss : list string).

Definition series_len (s : Series) : nat :=
  match s with
  | Float64 xs => length xs
  | Int64 zs => length zs
  | Datetime64 ts => length ts
  | Object ss => length ss
  end.

(** [float(z)] and [astype(float)] on an integer: the nearest binary64
    value (exact up to [2^53]). *)
Definition float_of_int (z : Z) : float := Some (binary64 (inject_Z z)).

(** [s.tolist()] as scalars. *)
Definition values (s : Series) : list scalar :=
  match s with
  | Float64 xs => map SFloat xs
  | Int64 zs => map SInt zs
  | Datetime64 ts => map SStamp ts
  | Object ss => map SStr ss
  end.

(** [s.iloc[i]] for a position inside the column; every column of a
    frame is as long as its index, so the default is never returned on
    a row of the frame. *)
Definition series_get (s : Series) (i : nat) : scalar :=
  nth i (values s) (SFloat NaN).

(** [s.astype(float).tolist()]: numeric dtypes convert, a datetime64
    column raises TypeError, an object column (taken as non-numeric text)
    raises ValueError. *)
Definition astype_float (s : Series) : Result (list float) :=
  match s with
  | Float64 xs => Ok xs
  | Int64 zs => Ok (map float_of_int zs)
  | Datetime64 _ => Raise (TypeError "Cannot cast DatetimeArray to dtype float64")
  | Object _ => Raise (ValueError "could not convert string to float")
  end.

(** [float(v)] *)
Definition float_of_scalar (v : scalar) : Result float :=
  match v with
  | SFloat x => Ok x
  | SInt z => Ok (float_of_int z)
  | SStamp _ => Raise (TypeError "float() argument must be a string or a real number")
  | SStr _ => Raise (ValueError "could not convert string to float")
  end.

(** [s.dropna()]: only a float column holds missing values here. *)
Definition dropna (s : Series) : Series :=
  match s with
  | Float64 xs => Float64 (filter (fun x => negb (isna x)) xs)
  | _ => s
  end.

(** [s.iloc[-1]] *)
Definition iloc_last (s : Series) : Result scalar :=
  match rev (values s) with
  | [] => Raise (IndexError "single positional indexer is out-of-bounds")
  | v :: _ => Ok v
  end.

Fixpoint Zmax_list (z : Z) (zs : list Z) : Z :=
  match zs with
  | [] => z
  | z' :: zs' => Zmax_list (Z.max z z') zs'
  end.

Fixpoint Zmin_list (z : Z) (zs : list Z) : Z :=
  match zs with
  | [] => z
  | z' :: zs' => Zmin_list (Z.min z z') zs'
  end.

(** [float(s.max())]: NaN are skipped, an empty or all-NaN column gives
    NaN, a non-numeric maximum is refused by [float]. *)
Definition max_float (s : Series) : Result float :=
  match s with
  | Float64 xs => Ok (nanmax xs)
  | Int64 [] => Ok NaN
  | Int64 (z :: zs) => Ok (float_of_int (Zmax_list z zs))
  | Datetime64 _ => Raise (TypeError "float() argument must be a string or a real number")
  | Object _ => Raise (ValueError "could not convert string to float")
  end.

(** [float(s.min())] *)
Definition min_float (s : Series) : Result float :=
  match s with
  | Float64 xs => Ok (nanmin xs)
  | Int64 [] => Ok NaN
  | Int64 (z :: zs) => Ok (float_of_int (Zmin_list z zs))
  | Datetime64 _ => Raise (TypeError "float() argument must be a string or a real number")
  | Object _ => Raise (ValueError "could not convert string to float")
  end.

(** [s.round(decimals)]: floats are rounded, integers are returned as
    they are, other dtypes are refused. *)
Definition series_round (decimals : nat) (s : Series) : Result Series :=
  match s with
  | Float64 xs => Ok (Float64 (map (round_float decimals) xs))
  | Int64 zs => Ok (Int64 zs)
  | Datetime64 _ => Raise (TypeError "round is not supported for datetime64")
  | Object _ => Raise (TypeError "Expected numeric dtype, got object instead.")
  end.

Definition ns_per_day : Z := 86400000000000%Z.

(** [pd.to_datetime(s)]: a datetime column is kept, integers are
    nanoseconds since 1970-01-01 (ordinal 719163).  Float and text
    columns are not converted by this model; the callback only meets them
    under the key Date when the provider names a data column Date and its
    index otherwise. *)
Definition to_datetime (s : Series) : Result (list Timestamp) :=
  match s with
  | Datetime64 ts => Ok ts
  | Int64 zs => Ok (map (fun z => (719163 + z / ns_per_day)%Z) zs)
  | Float64 _ => Raise (ValueError "to_datetime: float column")
  | Object _ => Raise (ValueError "to_datetime: text column")
  end.

(* ---------------------------------------------------------------------- *)
(** ** pandas: DataFrame *)

Inductive RowIndex : Type :=
| DatetimeIndex (name : option string) (stamps : list Timestamp)
| RangeIndex (stop : nat).

(** The column axis: a flat [Index] of labels, or a [MultiIndex] of
    tuples (first level, remaining levels). *)
Inductive Columns : Type :=
| Index (labels : list string)
| MultiIndex (tuples : list (string * list string)).

Record DataFrame : Type := {
  index : RowIndex;
  columns : Columns;
  data : list Series
}.

Definition index_len (ix : RowIndex) : nat :=
  match ix with
  | DatetimeIndex _ stamps => length stamps
  | RangeIndex stop => stop
  end.

(** [columns.get_level_values(0)] *)
Definition get_level_values_0 (c : Columns) : list string :=
  match c with
  | Index labels => labels
  | MultiIndex tuples => map fst tuples
  end.

Definition is_multiindex (c : Columns) : bool :=
  match c with
  | Index _ => false
  | MultiIndex _ => true
  end.

Definition columns_len (c : Columns) : nat := length (get_level_values_0 c).

(** [df.empty]: some axis has length 0. *)
Definition empty (df : DataFrame) : bool :=
  (index_len (index df) =? 0)%nat || (columns_len (columns df) =? 0)%nat.

(** [df.columns = labels] *)
Definition set_columns (df : DataFrame) (labels : list string) : DataFrame :=
  {| index := index df; columns := Index labels; data := data df |}.

Definition items (df : DataFrame) : list (string * Series) :=
  combine (get_level_values_0 (columns df)) (data df).

(** [df[key]] where the program goes on with a Series method: a missing
    key raises KeyError; a key that selects several columns, or any key of
    a frame whose columns are still multi-level, selects a DataFrame, on
    which that method fails. *)
Definition getitem (df : DataFrame) (key : string) : Result Series :=
  match filter (fun p => String.eqb (fst p) key) (items df) with
  | [] => Raise (KeyError key)
  | [(_, s)] => if is_multiindex (columns df) then Raise (NotASeries key) else Ok s
  | _ => Raise (NotASeries key)
  end.

Fixpoint replace_column (key : string) (s : Series) (labels : list string)
  (cols : list Series) : list Series :=
  match labels, cols with
  | l :: labels', c :: cols' =>
      (if String.eqb l key then s else c) :: replace_column key s labels' cols'
  | _, _ => cols
  end.

(** [df[key] = s]: an existing column is replaced in place, a new key is
    appended on the right. *)
Definition setitem (df : DataFrame) (key : string) (s : Series) : DataFrame :=
  let labels := get_level_values_0 (columns df) in
  if existsb (String.eqb key) labels
  then {| index := index df; columns := columns df;
          data := replace_column key s labels (data df) |}
  else {| index := index df; columns := Index (labels ++ [key]);
          data := data df ++ [s] |}.

(** [df.reset_index()]: the row index becomes the first column, named
    after the index; an index without a name gives "index", or "level_0"
    when "index" is already a column.  Inserting a label that is already
    a column raises ValueError. *)
Definition reset_index (df : DataFrame) : Result DataFrame :=
  let labels := get_level_values_0 (columns df) in
  let default_name :=
    if existsb (String.eqb "index") labels then "level_0" else "index" in
  let '(label, col) :=
    match index df with
    | DatetimeIndex name stamps =>
        (match name with Some n => n | None => default_name end, Datetime64 stamps)
    | RangeIndex stop => (default_name, Int64 (map Z.of_nat (seq 0 stop)))
    end in
  if existsb (String.eqb label) labels
  then Raise (ValueError ("cannot insert " ++ label ++ ", already exists"))
  else Ok {| index := RangeIndex (index_len (index df));
             columns := match columns df with
                        | Index ls => Index (label :: ls)
                        | MultiIndex ts => MultiIndex ((label, []) :: ts)
                        end;
             data := col :: data df |}.

(** [df.to_dict("records")]: one record per row, fields in column
    order. *)
Definition record := list (string * scalar).

Definition to_dict_records (df : DataFrame) : list record :=
  map (fun i => map (fun p => (fst p, series_get (snd p) i)) (items df))
      (seq 0 (index_len (index df))).

(** [record[key]] *)
Fixpoint record_get (r : record) (key : string) : option scalar :=
  match r with
  | [] => None
  | (k, v) :: r' => if String.eqb k key then Some v else record_get r' key
  end.

(* ---------------------------------------------------------------------- *)
(** ** Plotly figures and Dash components *)

Inductive Trace : Type :=
| Candlestick (x : list scalar) (open high low close : list float) (name : string)
| Scatter (x : list scalar) (y : list float) (mode name : string)
| Bar (x : list scalar) (y : list float) (name yaxis : string).

Record Layout : Type := {
  title : option string;
  template : option string;
  xaxis_title : option string;
  yaxis_title : option string;
  xaxis_rangeslider_visible : option bool;
  axes_hidden : bool;
    (* xaxis and yaxis set to
       dict(showgrid=False, zeroline=False, showticklabels=False) *)
  yaxis2 : option (string * string * string)
    (* dict(title=..., overlaying=..., side=...) *)
}.

Record Figure : Type := {
  fig_data : list Trace;
  layout : Layout
}.

(** Text of a component: a literal, or a float rendered by the f-string
    [f"${x:,.2f}"], kept with its argument. *)
Inductive Text : Type :=
| Lit (s : string)
| Dollars (x : float).

Inductive Html : Type :=
| H5 (children : Text) (className : option string)
| P (children : Text) (className : option string).

(** [dbc.CardBody([...])] *)
Definition CardBody := list Html.

(** One entry of the DataTable [columns] property. *)
Record ColumnSpec : Type := {
  col_name : string;
  col_id : string
}.

(** The seven outputs of the callback, in the order of its decorator. *)
Record Outputs : Type := {
  candlestick_chart : Figure;
  price_chart : Figure;
  latest_close_card : CardBody;
  week_52_high_card : CardBody;
  week_52_low_card : CardBody;
  table_data : list record;
  table_columns : list ColumnSpec
}.

(* ---------------------------------------------------------------------- *)
(** ** The provider and the effect monad *)

(** A [start=]/[end=] argument of [yf.download]: the value of the date
    picker as Dash hands it over (a string or None), or a [date]. *)
Inductive DateArg : Type :=
| PickerValue (v : option string)
| DateObject (d : date).

Record Request : Type := {
  tickers : string;
  start : DateArg;
  end_ : DateArg
}.

Definition Log := list Request.

(** Computations that may call the provider and may raise. *)
Definition M (A : Type) : Type := Log -> Result A * Log.

Definition ret {A} (a : A) : M A := fun log => (Ok a, log).

Definition raise {A} (e : exn) : M A := fun log => (Raise e, log).

Definition bind {A B} (c : M A) (k : A -> M B) : M B :=
  fun log =>
    match c log with
    | (Ok a, log') => k a log'
    | (Raise e, log') => (Raise e, log')
    end.

(** The body of a [try], with its outcome handed to the code after it. *)
Definition attempt {A} (c : M A) : M (Result A) :=
  fun log => let '(r, log') := c log in (Ok r, log').

Definition lift {A} (r : Result A) : M A := fun log => (r, log).

Declare Scope monad_scope.
Delimit Scope monad_scope with monad.
Notation "x <- c ;; k" := (bind c (fun x => k))
  (at level 61, c at next level, right associativity) : monad_scope.

(* ---------------------------------------------------------------------- *)
(** ** The callback *)

(** Lines 124-131. *)
Definition empty_fig : Figure :=
  {| fig_data := [];
     layout := {| title := Some "No Ticker Selected";
                  template := Some "plotly_dark";
                  xaxis_title := None; yaxis_title := None;
                  xaxis_rangeslider_visible := None;
                  axes_hidden := true;
                  yaxis2 := None |} |}.

Definition empty_card : CardBody :=
  [H5 (Lit "N/A") None; P (Lit "Enter a ticker") None].

Definition empty_outputs : Outputs :=
  {| candlestick_chart := empty_fig; price_chart := empty_fig;
     latest_close_card := empty_card; week_52_high_card := empty_card;
     week_52_low_card := empty_card;
     table_data := []; table_columns := [] |}.

(** Lines 149-153. *)
Definition error_fig (e : exn) : Figure :=
  {| fig_data := [];
     layout := {| title := Some ("Error: " ++ str_exn e);
                  template := Some "plotly_dark";
                  xaxis_title := None; yaxis_title := None;
                  xaxis_rangeslider_visible := None;
                  axes_hidden := false;
                  yaxis2 := None |} |}.

Definition error_card (e : exn) : CardBody :=
  [H5 (Lit "Error") None; P (Lit (str_exn e)) None].

Definition error_outputs (e : exn) : Outputs :=
  {| candlestick_chart := error_fig e; price_chart := error_fig e;
     latest_close_card := error_card e; week_52_high_card := error_card e;
     week_52_low_card := error_card e;
     table_data := []; table_columns := [] |}.

(** Lines 140-143: flatten MultiIndex columns if needed. *)
Definition flatten (df : DataFrame) : DataFrame :=
  if is_multiindex (columns df)
  then set_columns df (get_level_values_0 (columns df))
  else df.

Definition no_data_message (ticker : string) : string :=
  "No data found for ticker '" ++ ticker ++ "'".

(** [df[key].astype(float).tolist()] *)
Definition float_list (df : DataFrame) (key : string) : Result (list float) :=
  rbind (getitem df key) astype_float.

(** [df[key].tolist()] *)
Definition to_list (df : DataFrame) (key : string) : Result (list scalar) :=
  rmap values (getitem df key).

(** Lines 157-158. *)
Definition serializable (df_chart : DataFrame) : Result DataFrame :=
  (df_chart <- reset_index df_chart ;;
   dates <- getitem df_chart "Date" ;;
   stamps <- to_datetime dates ;;
   Ok (setitem df_chart "Date" (Object (map strftime_ymd stamps))))%result.

(** Lines 160-178. *)
Definition candlestick_figure (ticker : string) (df_chart : DataFrame) : Result Figure :=
  (x <- to_list df_chart "Date" ;;
   open <- float_list df_chart "Open" ;;
   high <- float_list df_chart "High" ;;
   low <- float_list df_chart "Low" ;;
   close <- float_list df_chart "Close" ;;
   Ok {| fig_data := [Candlestick x open high low close "Candlestick"];
         layout := {| title := Some (upper ticker ++ " Candlestick Chart");
                      template := Some "plotly_dark";
                      xaxis_title := Some "Date";
                      yaxis_title := Some "Price ($)";
                      xaxis_rangeslider_visible := Some false;
                      axes_hidden := false;
                      yaxis2 := None |} |})%result.

(** Lines 180-203. *)
Definition price_figure (ticker : string) (df_chart : DataFrame) : Result Figure :=
  (x <- to_list df_chart "Date" ;;
   y <- float_list df_chart "Close" ;;
   x2 <- to_list df_chart "Date" ;;
   y2 <- float_list df_chart "Volume" ;;
   Ok {| fig_data := [Scatter x y "lines" "Close"; Bar x2 y2 "Volume" "y2"];
         layout := {| title := Some (upper ticker ++ " Close Price & Volume");
                      template := Some "plotly_dark";
                      xaxis_title := Some "Date";
                      yaxis_title := Some "Price ($)";
                      xaxis_rangeslider_visible := None;
                      axes_hidden := false;
                      yaxis2 := Some ("Volume", "y", "right") |} |})%result.

(** Line 206: [float(df_metrics["Close"].dropna().iloc[-1])] *)
Definition latest_close (df_metrics : DataFrame) : Result float :=
  (s <- getitem df_metrics "Close" ;;
   v <- iloc_last (dropna s) ;;
   float_of_scalar v)%result.

(** Line 207: [float(df_metrics["High"].max())] *)
Definition week_52_high (df_metrics : DataFrame) : Result float :=
  rbind (getitem df_metrics "High") max_float.

(** Line 208: [float(df_metrics["Low"].min())] *)
Definition week_52_low (df_metrics : DataFrame) : Result float :=
  rbind (getitem df_metrics "Low") min_float.

(** Lines 210-227. *)
Definition metric_card (heading : string) (x : float) : CardBody :=
  [H5 (Lit heading) (Some "card-title"); P (Dollars x) (Some "card-text fs-3")].

Definition numeric_cols : list string := ["Open"; "High"; "Low"; "Close"].

(** Lines 230-233: the loop over [numeric_cols]. *)
Fixpoint round_columns (cols : list string) (df_table : DataFrame) : Result DataFrame :=
  match cols with
  | [] => Ok df_table
  | col :: cols' =>
      (s <- getitem df_table col ;;
       r <- series_round 2 s ;;
       round_columns cols' (setitem df_table col r))%result
  end.

(** Line 236. *)
Definition column_specs (df_table : DataFrame) : list ColumnSpec :=
  map (fun i => {| col_name := i; col_id := i |})
      (get_level_values_0 (columns df_table)).

(** Lines 155-247: everything after the [try] statement. *)
Definition derive (ticker : string) (df_chart df_metrics : DataFrame) : Result Outputs :=
  (df_chart <- serializable df_chart ;;
   candlestick_fig <- candlestick_figure ticker df_chart ;;
   price_fig <- price_figure ticker df_chart ;;
   latest <- latest_close df_metrics ;;
   high <- week_52_high df_metrics ;;
   low <- week_52_low df_metrics ;;
   df_table <- round_columns numeric_cols df_chart ;;
   Ok {| candlestick_chart := candlestick_fig;
         price_chart := price_fig;
         latest_close_card := metric_card "Latest Close" latest;
         week_52_high_card := metric_card "52-Week High" high;
         week_52_low_card := metric_card "52-Week Low" low;
         table_data := to_dict_records df_table;
         table_columns := column_specs df_table |})%result.

Section Callback.

(** [yf.download(tickers, start=..., end=...)] *)
Variable yf_download : Request -> Result DataFrame.

(** [date.today()] at the time of the request. *)
Variable today : date.

Definition download (r : Request) : M DataFrame :=
  fun log => (yf_download r, (log ++ [r])%list).

(** Lines 134-146: the body of the [try]. *)
Definition fetch (ticker : string) (start_date end_date : option string)
  : M (DataFrame * DataFrame) :=
  (df_chart <- download {| tickers := ticker;
                           start := PickerValue start_date;
                           end_ := PickerValue end_date |} ;;
   let year_ago := minus_days today 365 in
   df_metrics <- download {| tickers := ticker;
                             start := DateObject year_ago;
                             end_ := DateObject today |} ;;
   let df_chart := flatten df_chart in
   let df_metrics := flatten df_metrics in
   if empty df_chart || empty df_metrics
   then raise (ValueError (no_data_message ticker))
   else ret (df_chart, df_metrics))%monad.

(** Lines 121-247.  [not ticker] holds of None and of the empty
    string. *)
Definition update_dashboard (n_clicks : Z) (ticker : option string)
  (start_date end_date : option string) : M Outputs :=
  match ticker with
  | None | Some EmptyString => ret empty_outputs
  | Some ticker =>
      (fetched <- attempt (fetch ticker start_date end_date) ;;
       match fetched with
       | Raise e => ret (error_outputs e)
       | Ok (df_chart, df_metrics) => lift (derive ticker df_chart df_metrics)
       end)%monad
  end.

(** One request, from an empty log. *)
Definition run (n_clicks : Z) (ticker : option string)
  (start_date end_date : option string) : Result Outputs * Log :=
  update_dashboard n_clicks ticker start_date end_date [].

End Callback.

(* ---------------------------------------------------------------------- *)
(** ** Observations on the outputs *)

Definition fig_title (f : Figure) : option string := title (layout f).

(** The text of the heading (first [H5]) and of the body (first [P]) of a
    card. *)
Fixpoint heading (c : CardBody) : option Text :=
  match c with
  | [] => None
  | H5 t _ :: _ => Some t
  | P _ _ :: c' => heading c'
  end.

Fixpoint body (c : CardBody) : option Text :=
  match c with
  | [] => None
  | P t _ :: _ => Some t
  | H5 _ _ :: c' => body c'
  end.

(** The two requests a run makes for a ticker. *)
Definition chart_request (ticker : string) (start_date end_date : option string) : Request :=
  {| tickers := ticker; start := PickerValue start_date; end_ := PickerValue end_date |}.

Definition metrics_request (today : date) (ticker : string) : Request :=
  {| tickers := ticker;
     start := DateObject (minus_days today 365);
     end_ := DateObject today |}.

(** Number of rows of a provider response. *)
Definition rows (df : DataFrame) : nat := index_len (index df).

(* ---------------------------------------------------------------------- *)
(** ** Sample provider responses *)

Definition price (thousandths : Z) : float := Some (thousandths # 1000)%Q.

Definition field_names : list string := ["Close"; "High"; "Low"; "Open"; "Volume"].

(** A frame as yfinance lays it out for one symbol: flat labels, or
    labels qualified by the ticker. *)
Definition sample_frame (qualifier : option string) (stamps : list Timestamp)
  (close high low open : list float) (volume : list Z) : DataFrame :=
  {| index := DatetimeIndex (Some "Date") stamps;
     columns := match qualifier with
                | Some tk => MultiIndex (map (fun f => (f, [tk])) field_names)
                | None => Index field_names
                end;
     data := [Float64 close; Float64 high; Float64 low; Float64 open; Int64 volume] |}.

Definition two_days (qualifier : option string) : DataFrame :=
  sample_frame qualifier [738900; 738901]%Z
    [price 101000; price 123456] [price 102000; price 124000]
    [price 99000; price 100500] [price 100000; price 101125]
    [1000; 2000]%Z.

Definition three_days_last_close_missing : DataFrame :=
  sample_frame (Some "AAPL") [739900; 739901; 739902]%Z
    [price 101000; price 105250; NaN] [price 102000; price 109000; price 108000]
    [price 99000; price 100500; price 98125] [price 100000; price 101125; price 107000]
    [1000; 2000; 1500]%Z.

Definition no_rows (qualifier : option string) : DataFrame :=
  sample_frame qualifier [] [] [] [] [] [].

Definition closes_all_missing : DataFrame :=
  sample_frame None [739900; 739901]%Z
    [NaN; NaN] [price 102000; price 109000]
    [price 99000; price 100500] [price 100000; price 101125]
    [1000; 2000]%Z.

Definition without_volume : DataFrame :=
  {| index := DatetimeIndex (Some "Date") [739900]%Z;
     columns := Index ["Close"; "High"; "Low"; "Open"];
     data := [Float64 [price 101000]; Float64 [price 102000];
              Float64 [price 99000]; Float64 [price 100000]] |}.

(** A provider that answers the chart request (picker values) with
    [chart] and the metrics request (date objects) with [metrics]. *)
Definition provider_of (chart metrics : Result DataFrame) (r : Request)
  : Result DataFrame :=
  match start r with
  | PickerValue _ => chart
  | DateObject _ => metrics
  end.

(** Whitespace in the sense of [str.strip()], on the ASCII range. *)
Definition isspace (c : ascii) : bool :=
  let n := nat_of_ascii c in
  (n =? 32)%nat || ((9 <=? n)%nat && (n <=? 13)%nat) || ((28 <=? n)%nat && (n <=? 31)%nat).

Fixpoint only_whitespace (s : string) : bool :=
  match s with
  | EmptyString => true
  | String c s' => isspace c && only_whitespace s'
  end.

(* ---------------------------------------------------------------------- *)
(** ** Vocabulary of the specification *)

(** A single-level response holding the same values as a (possibly
    multi-level) response: same rows, same cells, and as labels the
    top-level field names. *)
Definition single_level_twin (multi flat : DataFrame) : Prop :=
  index flat = index multi /\
  data flat = data multi /\
  columns flat = Index (get_level_values_0 (columns multi)).

Definition twin_responses (r_multi r_flat : Result DataFrame) : Prop :=
  match r_multi, r_flat with
  | Ok multi, Ok flat => single_level_twin multi flat
  | Raise e, Raise e' => e = e'
  | _, _ => False
  end.

(** One trading day of the data model. *)
Record DailyBar : Type := {
  bar_date : Timestamp;
  bar_open : float;
  bar_high : float;
  bar_low : float;
  bar_close : float;
  bar_volume : Z
}.

(** A provider response holds a series of bars: its index, named Date,
    lists the days in order, no data column is labelled Date, and (once
    flattened) the columns Open, High, Low, Close and Volume are the
    bars' fields, prices as float64 and volume as int64.  Other columns
    may be present, in any order. *)
Definition holds (df : DataFrame) (bars : list DailyBar) : Prop :=
  index df = DatetimeIndex (Some "Date") (map bar_date bars) /\
  ~ In "Date" (get_level_values_0 (columns df)) /\
  getitem (flatten df) "Open" = Ok (Float64 (map bar_open bars)) /\
  getitem (flatten df) "High" = Ok (Float64 (map bar_high bars)) /\
  getitem (flatten df) "Low" = Ok (Float64 (map bar_low bars)) /\
  getitem (flatten df) "Close" = Ok (Float64 (map bar_close bars)) /\
  getitem (flatten df) "Volume" = Ok (Int64 (map bar_volume bars)).

(** [c] is the close of the chronologically last bar whose close is not
    missing. *)
Definition is_latest_close (bars : list DailyBar) (c : Q) : Prop :=
  exists earlier bar later,
    bars = (earlier ++ bar :: later)%list /\
    bar_close bar = Some c /\
    Forall (fun b => bar_close b = NaN) later.

(** [m] is the maximum of the values present in [xs] (NaN when none is
    present). *)
Definition is_max_of (xs : list float) (m : float) : Prop :=
  match m with
  | Some v => In (Some v) xs /\ forall x, In (Some x) xs -> (x <= v)%Q
  | None => forall x, In x xs -> x = NaN
  end.

Definition is_min_of (xs : list float) (m : float) : Prop :=
  match m with
  | Some v => In (Some v) xs /\ forall x, In (Some x) xs -> (v <= x)%Q
  | None => forall x, In x xs -> x = NaN
  end.

(** The provider guarantee on one bar: low and high present, low <= high. *)
Definition low_le_high (b : DailyBar) : Prop :=
  match bar_low b, bar_high b with
  | Some lo, Some hi => (lo <= hi)%Q
  | _, _ => False
  end.

(** Standard rounding to 2 decimal places, in the words of the
    specification: the nearest whole number of hundredths, a value
    exactly halfway going away from zero. *)
Definition standard_round_2 (x : Q) : Q :=
  let n := Qfloor (Qabs x * 100 + (1 # 2)) in
  Qred ((if Qle_bool 0 x then 1 else -1) * (inject_Z n / 100)).

(** The float64 written as a decimal with three places. *)
Definition f64 (thousandths : Z) : float := Some (binary64 (thousandths # 1000)).

(** A price on which [round_float] stands for the float64 rounding of the
    code: missing, or a binary64 value that is not negative and is below
    [2^1000] (so that its product with 100 is finite). *)
Definition float64_price (x : float) : bool :=
  match x with
  | None => true
  | Some q => Qeq_bool (binary64 q) q && Qle_bool 0 q && Qle_bool q (Qpower 2 1000)
  end.

Definition float64_prices (b : DailyBar) : bool :=
  float64_price (bar_open b) && float64_price (bar_high b) &&
  float64_price (bar_low b) && float64_price (bar_close b).

(** The [try] body of a run completes with these two frames. *)
Definition fetched (yf : Request -> Result DataFrame) (today : date)
  (t : string) (s e : option string) (df_chart df_metrics : DataFrame) : Prop :=
  fst (fetch yf today t s e []) = Ok (df_chart, df_metrics).

(** The assignment [df[key] = s] on the (label, column) pairs. *)
Definition assign (key : string) (s : Series) (p : string * Series) : string * Series :=
  (fst p, if String.eqb (fst p) key then s else snd p).

(** Row [i] of [to_dict("records")]. *)
Definition record_at (df : DataFrame) (i : nat) : record :=
  map (fun p => (fst p, series_get (snd p) i)) (items df).

Definition sample_bars : list DailyBar :=
  [ {| bar_date := 738900%Z; bar_open := price 100000; bar_high := price 102000;
       bar_low := price 99000; bar_close := price 101000; bar_volume := 1000%Z |};
    {| bar_date := 738901%Z; bar_open := price 101125; bar_high := price 124000;
       bar_low := price 100500; bar_close := price 123456; bar_volume := 2000%Z |} ].

Definition sample_metric_bars : list DailyBar :=
  [ {| bar_date := 739900%Z; bar_open := price 100000; bar_high := price 102000;
       bar_low := price 99000; bar_close := price 101000; bar_volume := 1000%Z |};
    {| bar_date := 739901%Z; bar_open := price 101125; bar_high := price 109000;
       bar_low := price 100500; bar_close := price 105250; bar_volume := 2000%Z |};
    {| bar_date := 739902%Z; bar_open := price 107000; bar_high := price 108000;
       bar_low := price 98125; bar_close := NaN; bar_volume := 1500%Z |} ].

(** Two days of float64 prices, among them 123.456, the exact halves
    101.125 and 0.125, and 2.675 and 1.015, whose products with 100 round
    to a half and below a half. *)
Definition float_bars : list DailyBar :=
  [ {| bar_date := 738900%Z; bar_open := f64 101125; bar_high := f64 123456;
       bar_low := f64 100500; bar_close := f64 123456; bar_volume := 1000%Z |};
    {| bar_date := 738901%Z; bar_open := f64 125; bar_high := f64 2675;
       bar_low := f64 125; bar_close := f64 1015; bar_volume := 2000%Z |} ].

Definition float_days (qualifier : option string) : DataFrame :=
  sample_frame qualifier (map bar_date float_bars)
    (map bar_close float_bars) (map bar_high float_bars)
    (map bar_low float_bars) (map bar_open float_bars)
    (map bar_volume float_bars).

(** A provider whose chart answer depends on the requested range. *)
Definition ranged_provider (r : Request) : Result DataFrame :=
  match start r with
  | PickerValue (Some d) =>
      if String.eqb d "2024-01-01" then Ok (two_days None)
      else Ok three_days_last_close_missing
  | PickerValue None => Ok (no_rows None)
  | DateObject _ => Ok three_days_last_close_missing
  end.

(* ---------------------------------------------------------------------- *)
(** ** Further sample responses *)

(** The columns the two figures read, in the order they are read
    (lines 164-167 and 184-192). *)
Definition chart_fields : list string := ["Open"; "High"; "Low"; "Close"; "Volume"].

(** An intraday response: the index is named Datetime. *)
Definition intraday_frame : DataFrame :=
  {| index := DatetimeIndex (Some "Datetime") [739900; 739900]%Z;
     columns := Index field_names;
     data := [Float64 [price 101000; price 101500]; Float64 [price 102000; price 102500];
              Float64 [price 99000; price 100500]; Float64 [price 100000; price 101125];
              Int64 [1000; 2000]%Z] |}.

(** A response that already carries a Date column beside its Date index. *)
Definition date_column_frame : DataFrame :=
  {| index := DatetimeIndex (Some "Date") [739900]%Z;
     columns := Index ["Date"; "Close"; "High"; "Low"; "Open"; "Volume"];
     data := [Datetime64 [739900]%Z; Float64 [price 101000]; Float64 [price 102000];
              Float64 [price 99000]; Float64 [price 100000]; Int64 [1000]%Z] |}.

(** A response with an adjusted close beside the five fields. *)
Definition with_adj_close : DataFrame :=
  {| index := DatetimeIndex (Some "Date") [738900; 738901]%Z;
     columns := Index ["Adj Close"; "Close"; "High"; "Low"; "Open"; "Volume"];
     data := [Float64 [price 100871; price 123309];
              Float64 [price 101000; price 123456]; Float64 [price 102000; price 124000];
              Float64 [price 99000; price 100500]; Float64 [price 100000; price 101125];
              Int64 [1000; 2000]%Z] |}.

(** A response for two symbols: every field occurs once per symbol. *)
Definition two_tickers : DataFrame :=
  {| index := DatetimeIndex (Some "Date") [739900]%Z;
     columns := MultiIndex [("Close", ["AAPL"]); ("Close", ["MSFT"]);
                            ("High", ["AAPL"]); ("High", ["MSFT"]);
                            ("Low", ["AAPL"]); ("Low", ["MSFT"]);
                            ("Open", ["AAPL"]); ("Open", ["MSFT"]);
                            ("Volume", ["AAPL"]); ("Volume", ["MSFT"])];
     data := [Float64 [price 101000]; Float64 [price 401000];
              Float64 [price 102000]; Float64 [price 402000];
              Float64 [price 99000]; Float64 [price 399000];
              Float64 [price 100000]; Float64 [price 400000];
              Int64 [1000]%Z; Int64 [3000]%Z] |}.

(** Rows without any column. *)
Definition no_columns : DataFrame :=
  {| index := DatetimeIndex (Some "Date") [739900; 739901]%Z;
     columns := Index [];
     data := [] |}.

Definition highs_all_missing : DataFrame :=
  sample_frame None [739900; 739901]%Z
    [price 101000; price 105250] [NaN; NaN]
    [price 99000; NaN] [price 100000; price 101125]
    [1000; 2000]%Z.

(* ====================================================================== *)
(** * Properties *)

Example strftime_leap : strftime_ymd 738945%Z = "2024-02-29".
Proof. reflexivity. Qed.

Example strftime_epoch : strftime_ymd 719163%Z = "1970-01-01".
Proof. reflexivity. Qed.

Example upper_aapl : upper "aapl.x" = "AAPL.X".
Proof. reflexivity. Qed.

Example binary64_tenth :
  binary64 (1 # 10) = (3602879701896397 # 36028797018963968)%Q.
Proof. vm_compute. reflexivity. Qed.

Example binary64_above_2_53 :
  binary64 (inject_Z (2 ^ 53 + 1)) = inject_Z (2 ^ 53).
Proof. vm_compute. reflexivity. Qed.

(** [binary64], [float_of_int] and [round_float 2] agree with the binary64
    arithmetic of the kernel. *)
Example binary64_is_kernel_quotient :
  map (fun k => f64 k) [123456; 101125; 125; 2675; 1015; 1; 999999999]%Z
  = map (fun k => Q_of_kernel_float (kernel_float k 1000))
        [123456; 101125; 125; 2675; 1015; 1; 999999999]%Z.
Proof. vm_compute. reflexivity. Qed.

Example float_of_int_is_kernel_conversion :
  map float_of_int [0; 1000; 2 ^ 53 + 1; 2 ^ 62 - 1]%Z
  = map (fun z => Q_of_kernel_float (PrimFloat.of_uint63 (Uint63.of_Z z)))
        [0; 1000; 2 ^ 53 + 1; 2 ^ 62 - 1]%Z.
Proof. vm_compute. reflexivity. Qed.

Example round_float_is_kernel_round :
  map (fun k => round_float 2 (f64 k))
      [123456; 101125; 125; 2675; 1015; 285; 1115; 5015; 99995; 4; 5; 0]%Z
  = map (fun k => kernel_round_2 (kernel_float k 1000))
        [123456; 101125; 125; 2675; 1015; 285; 1115; 5015; 99995; 4; 5; 0]%Z.
Proof. vm_compute. reflexivity. Qed.

Example np_round_example : round_float 2 (f64 123456) = f64 123460.
Proof. vm_compute. reflexivity. Qed.

Example np_round_tie_even : round_float 2 (f64 125) = f64 120.
Proof. vm_compute. reflexivity. Qed.

Example np_round_product_rounds_up : round_float 2 (f64 2675) = f64 2680.
Proof. vm_compute. reflexivity. Qed.

Example np_round_product_rounds_down : round_float 2 (f64 1015) = f64 1010.
Proof. vm_compute. reflexivity. Qed.

(* ---------------------------------------------------------------------- *)
(** ** The guarded stage: validation, the two fetches, the no-data check *)

Lemma nonempty_ticker_runs yf today n t s e :
  t <> "" ->
  run yf today n (Some t) s e =
  (let '(r, log) := fetch yf today t s e [] in
   match r with
   | Raise ex => (Ok (error_outputs ex), log)
   | Ok (df_chart, df_metrics) => (derive t df_chart df_metrics, log)
   end).
Proof.
  intros Ht. destruct t as [|c t]; [congruence|].
  unfold run, update_dashboard, attempt, bind, lift, ret.
  destruct (fetch yf today (String c t) s e []) as [[[dfc dfm]|ex] log]; reflexivity.
Qed.

Lemma fetch_both_answer yf today t s e dfc dfm :
  yf (chart_request t s e) = Ok dfc ->
  yf (metrics_request today t) = Ok dfm ->
  fetch yf today t s e [] =
  ((if empty (flatten dfc) || empty (flatten dfm)
    then Raise (ValueError (no_data_message t))
    else Ok (flatten dfc, flatten dfm)),
   [chart_request t s e; metrics_request today t]).
Proof.
  intros Hc Hm. unfold fetch, bind, download, raise, ret. cbn [app].
  fold (chart_request t s e). rewrite Hc.
  fold (metrics_request today t). rewrite Hm.
  destruct (empty (flatten dfc) || empty (flatten dfm)); reflexivity.
Qed.

Lemma fetch_chart_raises yf today t s e ex :
  yf (chart_request t s e) = Raise ex ->
  fetch yf today t s e [] = (Raise ex, [chart_request t s e]).
Proof.
  intros Hc. unfold fetch, bind, download. cbn [app].
  fold (chart_request t s e). rewrite Hc. reflexivity.
Qed.

Lemma fetch_metrics_raises yf today t s e dfc ex :
  yf (chart_request t s e) = Ok dfc ->
  yf (metrics_request today t) = Raise ex ->
  fetch yf today t s e [] =
  (Raise ex, [chart_request t s e; metrics_request today t]).
Proof.
  intros Hc Hm. unfold fetch, bind, download. cbn [app].
  fold (chart_request t s e). rewrite Hc.
  fold (metrics_request today t). rewrite Hm. reflexivity.
Qed.

Lemma flatten_rows df : rows (flatten df) = rows df.
Proof. unfold flatten, rows. destruct (is_multiindex (columns df)); reflexivity. Qed.

Lemma empty_of_no_rows df : rows df = 0%nat -> empty (flatten df) = true.
Proof.
  intros H. unfold empty. fold (rows (flatten df)).
  rewrite flatten_rows, H. reflexivity.
Qed.

(** C4.  With the empty string as ticker (and likewise with no ticker at
    all) the provider is never called, and the callback returns the
    EMPTY outputs: both figures titled "No Ticker Selected", the three
    cards reading "N/A", no table rows and no table columns. *)
Theorem C4_empty_ticker_no_call :
  forall yf today n s e,
    let out := empty_outputs in
    run yf today n (Some "") s e = (Ok out, []) /\
    run yf today n None s e = (Ok out, []) /\
    fig_title (candlestick_chart out) = Some "No Ticker Selected" /\
    fig_title (price_chart out) = Some "No Ticker Selected" /\
    heading (latest_close_card out) = Some (Lit "N/A") /\
    heading (week_52_high_card out) = Some (Lit "N/A") /\
    heading (week_52_low_card out) = Some (Lit "N/A") /\
    table_data out = [] /\
    table_columns out = [].
Proof.
  intros yf today n s e out. repeat split; reflexivity.
Qed.

(** C3.  For a non-empty ticker, when both fetches answer and the chart
    frame or the metrics frame has zero rows, the callback returns the
    ERROR outputs: both figure titles and the body of all three cards
    carry "No data found for ticker '<ticker>'" (the titles after the
    prefix "Error: "), and the table has no rows and no columns. *)
Theorem C3_no_rows_names_ticker :
  forall yf today n t s e dfc dfm,
    t <> "" ->
    yf (chart_request t s e) = Ok dfc ->
    yf (metrics_request today t) = Ok dfm ->
    rows dfc = 0%nat \/ rows dfm = 0%nat ->
    exists out,
      fst (run yf today n (Some t) s e) = Ok out /\
      fig_title (candlestick_chart out)
        = Some ("Error: No data found for ticker '" ++ t ++ "'") /\
      fig_title (price_chart out)
        = Some ("Error: No data found for ticker '" ++ t ++ "'") /\
      body (latest_close_card out)
        = Some (Lit ("No data found for ticker '" ++ t ++ "'")) /\
      body (week_52_high_card out)
        = Some (Lit ("No data found for ticker '" ++ t ++ "'")) /\
      body (week_52_low_card out)
        = Some (Lit ("No data found for ticker '" ++ t ++ "'")) /\
      heading (latest_close_card out) = Some (Lit "Error") /\
      heading (week_52_high_card out) = Some (Lit "Error") /\
      heading (week_52_low_card out) = Some (Lit "Error") /\
      table_data out = [] /\
      table_columns out = [].
Proof.
  intros yf today n t s e dfc dfm Ht Hc Hm Hrows.
  exists (error_outputs (ValueError (no_data_message t))).
  split; [|repeat split; reflexivity].
  rewrite nonempty_ticker_runs by assumption.
  rewrite (fetch_both_answer _ _ _ _ _ _ _ Hc Hm).
  assert (Hempty : empty (flatten dfc) || empty (flatten dfm) = true).
  { destruct Hrows as [H|H]; rewrite (empty_of_no_rows _ H).
    - reflexivity.
    - apply orb_true_r. }
  rewrite Hempty. reflexivity.
Qed.

Lemma C3_no_rows_names_ticker_witness :
  exists out,
    fst (run (provider_of (Ok (no_rows (Some "ZZZZINVALID"))) (Ok (two_days None)))
             739923%Z 1%Z (Some "ZZZZINVALID") (Some "2024-01-01") (Some "2024-06-30"))
      = Ok out /\
    fig_title (candlestick_chart out)
      = Some "Error: No data found for ticker 'ZZZZINVALID'" /\
    table_data out = [].
Proof.
  destruct (C3_no_rows_names_ticker
              (provider_of (Ok (no_rows (Some "ZZZZINVALID"))) (Ok (two_days None)))
              739923%Z 1%Z "ZZZZINVALID" (Some "2024-01-01") (Some "2024-06-30")
              (no_rows (Some "ZZZZINVALID")) (two_days None))
    as [out [Hrun [Ht1 [_ [_ [_ [_ [_ [_ [_ [Htab _]]]]]]]]]]].
  - discriminate.
  - reflexivity.
  - reflexivity.
  - left. reflexivity.
  - exists out. repeat split; assumption.
Defined.

(** Inversion of a chain of [rbind] that ended in [Ok]. *)
Ltac rinv H :=
  repeat match type of H with
         | rbind ?c _ = Ok _ =>
             let E := fresh "E" in
             destruct c eqn:E; cbn [rbind] in H; [|discriminate H]
         end.

Lemma derive_has_trace t dfc dfm out :
  derive t dfc dfm = Ok out -> fig_data (candlestick_chart out) <> [].
Proof.
  unfold derive. intros H. rinv H.
  unfold candlestick_figure in E0. rinv E0.
  injection H as <-. injection E0 as <-. discriminate.
Qed.

(** C9 (as the code has it).  Only the absent and the empty ticker are
    rejected.  Every other ticker, one made of whitespace included, is
    sent to the provider exactly as it was typed, with no trimming: the
    first logged request is the chart request for that very string, every
    logged request carries it, and the result is not the EMPTY outputs. *)
Theorem C9_nonempty_ticker_fetched_untrimmed :
  forall yf today n t s e,
    t <> "" ->
    (exists rest, snd (run yf today n (Some t) s e) = chart_request t s e :: rest) /\
    Forall (fun r => tickers r = t) (snd (run yf today n (Some t) s e)) /\
    fst (run yf today n (Some t) s e) <> Ok empty_outputs.
Proof.
  intros yf today n t s e Ht.
  rewrite nonempty_ticker_runs by assumption.
  destruct (yf (chart_request t s e)) as [dfc|ex] eqn:Hc.
  - destruct (yf (metrics_request today t)) as [dfm|ex] eqn:Hm.
    + rewrite (fetch_both_answer _ _ _ _ _ _ _ Hc Hm).
      destruct (empty (flatten dfc) || empty (flatten dfm)); cbn [fst snd].
      * split; [eexists; reflexivity|]. split; [repeat constructor|discriminate].
      * split; [eexists; reflexivity|]. split; [repeat constructor|].
        intros H. apply derive_has_trace in H. apply H. reflexivity.
    + rewrite (fetch_metrics_raises _ _ _ _ _ _ _ Hc Hm). cbn [fst snd].
      split; [eexists; reflexivity|]. split; [repeat constructor|discriminate].
  - rewrite (fetch_chart_raises _ _ _ _ _ _ Hc). cbn [fst snd].
    split; [eexists; reflexivity|]. split; [repeat constructor|discriminate].
Qed.

Lemma C9_nonempty_ticker_fetched_untrimmed_witness :
  Forall (fun r => tickers r = " AAPL ")
    (snd (run (provider_of (Ok (two_days None)) (Ok (two_days None)))
              739923%Z 1%Z (Some " AAPL ") None None)).
Proof.
  apply (C9_nonempty_ticker_fetched_untrimmed
           (provider_of (Ok (two_days None)) (Ok (two_days None)))
           739923%Z 1%Z " AAPL " None None).
  discriminate.
Defined.

(** C9 as stated fails: the ticker made of one space is whitespace only,
    yet the run calls the provider twice with it and does not return the
    EMPTY outputs. *)
Lemma C9_whitespace_ticker_counterexample :
  only_whitespace " " = true /\
  snd (run (provider_of (Ok (two_days None)) (Ok (two_days None)))
           739923%Z 1%Z (Some " ") None None)
    = [chart_request " " None None; metrics_request 739923%Z " "] /\
  fst (run (provider_of (Ok (two_days None)) (Ok (two_days None)))
           739923%Z 1%Z (Some " ") None None)
    <> Ok empty_outputs.
Proof.
  split; [reflexivity|]. split; [reflexivity|].
  vm_compute. discriminate.
Qed.

(** C8 (as the code has it).  The [try] statement guards the two fetches
    (and the no-data check of C3): an exception raised by either call of
    the provider is caught and turned into the ERROR outputs, with
    [str(e)] in both figure titles (after "Error: ") and in the body of
    the three cards, and an empty table. *)
Theorem C8_fetch_failures_rendered :
  forall yf today n t s e ex,
    t <> "" ->
    yf (chart_request t s e) = Raise ex \/
    (exists dfc, yf (chart_request t s e) = Ok dfc /\
                 yf (metrics_request today t) = Raise ex) ->
    exists out,
      fst (run yf today n (Some t) s e) = Ok out /\
      fig_title (candlestick_chart out) = Some ("Error: " ++ str_exn ex) /\
      fig_title (price_chart out) = Some ("Error: " ++ str_exn ex) /\
      body (latest_close_card out) = Some (Lit (str_exn ex)) /\
      body (week_52_high_card out) = Some (Lit (str_exn ex)) /\
      body (week_52_low_card out) = Some (Lit (str_exn ex)) /\
      table_data out = [] /\
      table_columns out = [].
Proof.
  intros yf today n t s e ex Ht H.
  exists (error_outputs ex). split; [|repeat split; reflexivity].
  rewrite nonempty_ticker_runs by assumption.
  destruct H as [Hc|[dfc [Hc Hm]]].
  - rewrite (fetch_chart_raises _ _ _ _ _ _ Hc). reflexivity.
  - rewrite (fetch_metrics_raises _ _ _ _ _ _ _ Hc Hm). reflexivity.
Qed.

Lemma C8_fetch_failures_rendered_witness :
  exists out,
    fst (run (provider_of (Ok (two_days None)) (Raise (ProviderError "Too Many Requests")))
             739923%Z 1%Z (Some "AAPL") None None) = Ok out /\
    fig_title (candlestick_chart out) = Some "Error: Too Many Requests".
Proof.
  destruct (C8_fetch_failures_rendered
              (provider_of (Ok (two_days None)) (Raise (ProviderError "Too Many Requests")))
              739923%Z 1%Z "AAPL" None None (ProviderError "Too Many Requests"))
    as [out [Hrun [Ht _]]].
  - discriminate.
  - right. exists (two_days None). split; reflexivity.
  - exists out. split; assumption.
Defined.

(** C8 as stated fails.  Both fetches succeed with rows; in the first run
    the chart frame lacks the Volume column and the KeyError of the price
    figure (line 192) leaves the callback; in the second run every Close
    of the metrics frame is missing and the IndexError of line 206 leaves
    it.  Both lines are after the [try] statement: no outputs are
    returned. *)
Lemma C8_derivation_failure_counterexample :
  provider_of (Ok without_volume) (Ok (two_days None))
    (chart_request "AAPL" None None) = Ok without_volume /\
  provider_of (Ok without_volume) (Ok (two_days None))
    (metrics_request 739923%Z "AAPL") = Ok (two_days None) /\
  rows without_volume = 1%nat /\
  fst (run (provider_of (Ok without_volume) (Ok (two_days None)))
           739923%Z 1%Z (Some "AAPL") None None)
    = Raise (KeyError "Volume") /\
  rows closes_all_missing = 2%nat /\
  fst (run (provider_of (Ok (two_days None)) (Ok closes_all_missing))
           739923%Z 1%Z (Some "AAPL") None None)
    = Raise (IndexError "single positional indexer is out-of-bounds").
Proof. repeat split; reflexivity. Qed.

Lemma dropna_all_missing closes :
  Forall (fun x => x = NaN) closes -> dropna (Float64 closes) = Float64 [].
Proof.
  intros H. cbn [dropna]. f_equal.
  induction H as [|x xs Hx _ IH]; [reflexivity|].
  subst x. cbn. exact IH.
Qed.

Lemma latest_close_all_missing df closes :
  getitem df "Close" = Ok (Float64 closes) ->
  Forall (fun x => x = NaN) closes ->
  latest_close df = Raise (IndexError "single positional indexer is out-of-bounds").
Proof.
  intros Hget Hall. unfold latest_close. rewrite Hget. cbn [rbind].
  rewrite (dropna_all_missing _ Hall). reflexivity.
Qed.

(** C10.  There is a request for which both fetches succeed, the metrics
    frame has rows, every Close of it is missing, and the callback ends
    with the IndexError of [.iloc[-1]] on the emptied column (line 206):
    it returns no outputs. *)
Theorem C10_all_closes_missing_raises :
  exists yf today n t s e dfc dfm closes,
    yf (chart_request t s e) = Ok dfc /\
    yf (metrics_request today t) = Ok dfm /\
    rows dfc <> 0%nat /\
    rows dfm <> 0%nat /\
    getitem dfm "Close" = Ok (Float64 closes) /\
    Forall (fun x => x = NaN) closes /\
    latest_close dfm
      = Raise (IndexError "single positional indexer is out-of-bounds") /\
    fst (run yf today n (Some t) s e)
      = Raise (IndexError "single positional indexer is out-of-bounds").
Proof.
  exists (provider_of (Ok (two_days None)) (Ok closes_all_missing)).
  exists 739923%Z, 1%Z, "AAPL", (Some "2024-01-01"), (Some "2024-06-30").
  exists (two_days None), closes_all_missing, [NaN; NaN].
  assert (Hget : getitem closes_all_missing "Close" = Ok (Float64 [NaN; NaN]))
    by reflexivity.
  assert (Hall : Forall (fun x : float => x = NaN) [NaN; NaN])
    by (repeat constructor).
  repeat split; try discriminate; try assumption; try reflexivity.
Qed.

(* ---------------------------------------------------------------------- *)
(** ** Column flattening *)

Lemma flatten_flat df : is_multiindex (columns df) = false -> flatten df = df.
Proof. intros H. unfold flatten. rewrite H. reflexivity. Qed.

Lemma flatten_twin multi flat :
  single_level_twin multi flat -> flatten multi = flatten flat.
Proof.
  destruct multi as [ix cols dat], flat as [ix' cols' dat'].
  intros [Hix [Hdat Hcols]]. cbn in Hix, Hdat, Hcols. subst ix' dat' cols'.
  destruct cols as [labels|tuples]; reflexivity.
Qed.

Lemma flatten_idempotent df : flatten (flatten df) = flatten df.
Proof.
  destruct df as [ix [labels|tuples] dat]; reflexivity.
Qed.

Lemma fetch_twin yf_multi yf_flat today t s e log :
  (forall r, twin_responses (yf_multi r) (yf_flat r)) ->
  fetch yf_multi today t s e log = fetch yf_flat today t s e log.
Proof.
  intros Htwin. unfold fetch, bind, download, raise, ret.
  pose proof (Htwin {| tickers := t; start := PickerValue s; end_ := PickerValue e |}) as Hc.
  pose proof (Htwin {| tickers := t; start := DateObject (minus_days today 365);
                       end_ := DateObject today |}) as Hm.
  unfold twin_responses in Hc, Hm.
  destruct (yf_multi _) as [mc|ec], (yf_flat _) as [fc|ec']; try contradiction.
  - destruct (yf_multi _) as [mm|em], (yf_flat _) as [fm|em']; try contradiction.
    + rewrite (flatten_twin _ _ Hc), (flatten_twin _ _ Hm). reflexivity.
    + subst em'. reflexivity.
  - subst ec'. reflexivity.
Qed.

(** C5.  A frame with multi-level columns is collapsed to a flat index of
    its top-level names, rows and cells untouched; and a provider that
    answers with multi-level columns yields exactly the outputs (figures,
    cards, table) and the calls of a provider that answers every request
    with the single-level frame of the same values. *)
Theorem C5_multi_level_same_as_single_level :
  forall yf_multi yf_flat today n ticker s e,
    (forall r, twin_responses (yf_multi r) (yf_flat r)) ->
    run yf_multi today n ticker s e = run yf_flat today n ticker s e /\
    (forall r df tuples,
        yf_multi r = Ok df ->
        columns df = MultiIndex tuples ->
        columns (flatten df) = Index (map fst tuples) /\
        index (flatten df) = index df /\
        data (flatten df) = data df /\
        yf_flat r = Ok (flatten df)).
Proof.
  intros yf_multi yf_flat today n ticker s e Htwin. split.
  - unfold run, update_dashboard.
    destruct ticker as [[|c t]|]; try reflexivity.
    unfold attempt, bind.
    rewrite (fetch_twin _ _ _ _ _ _ _ Htwin). reflexivity.
  - intros r df tuples Hr Hcols.
    pose proof (Htwin r) as H. rewrite Hr in H. unfold twin_responses in H.
    destruct (yf_flat r) as [flat|]; [|contradiction].
    pose proof (flatten_twin _ _ H) as Hfl.
    destruct H as [Hix [Hdat Hc]].
    rewrite (flatten_flat flat) in Hfl by (rewrite Hc; reflexivity).
    unfold flatten. rewrite Hcols. cbn.
    repeat split. rewrite <- Hfl. unfold flatten. rewrite Hcols. reflexivity.
Qed.

Lemma C5_multi_level_same_as_single_level_witness :
  run (provider_of (Ok (two_days (Some "AAPL"))) (Ok three_days_last_close_missing))
      739923%Z 1%Z (Some "AAPL") (Some "2024-01-01") (Some "2024-06-30")
  = run (provider_of (Ok (two_days None)) (Ok (flatten three_days_last_close_missing)))
        739923%Z 1%Z (Some "AAPL") (Some "2024-01-01") (Some "2024-06-30").
Proof.
  apply (C5_multi_level_same_as_single_level
           (provider_of (Ok (two_days (Some "AAPL"))) (Ok three_days_last_close_missing))
           (provider_of (Ok (two_days None)) (Ok (flatten three_days_last_close_missing)))
           739923%Z 1%Z (Some "AAPL") (Some "2024-01-01") (Some "2024-06-30")).
  intros [tk [v|d] en]; cbn; repeat split; reflexivity.
Defined.

(* ---------------------------------------------------------------------- *)
(** ** Column selection and assignment *)

Section Selection.

Variable key : string.

Local Abbreviation sel := (fun p : string * Series => String.eqb (fst p) key).

Lemma filter_key_notin labels cols :
  ~ In key labels -> filter sel (combine labels cols) = [].
Proof.
  revert cols. induction labels as [|l labels IH]; intros cols Hnot; [reflexivity|].
  destruct cols as [|c cols]; [reflexivity|].
  cbn [combine filter fst].
  destruct (String.eqb_spec l key) as [->|Hne].
  - exfalso. apply Hnot. left. reflexivity.
  - apply IH. intros Hin. apply Hnot. right. exact Hin.
Qed.

Lemma existsb_key_of_filter labels cols :
  filter sel (combine labels cols) <> [] -> existsb (String.eqb key) labels = true.
Proof.
  revert cols. induction labels as [|l labels IH]; intros cols H.
  - exfalso. apply H. reflexivity.
  - destruct cols as [|c cols]; [exfalso; apply H; reflexivity|].
    cbn [combine filter] in H. cbn [fst] in H.
    cbn [existsb]. rewrite (String.eqb_sym key l).
    destruct (String.eqb l key); [reflexivity|].
    cbn [orb]. exact (IH _ H).
Qed.

Lemma existsb_key_notin labels :
  ~ In key labels -> existsb (String.eqb key) labels = false.
Proof.
  induction labels as [|l labels IH]; intros Hnot; [reflexivity|].
  cbn [existsb]. destruct (String.eqb_spec key l) as [->|Hne].
  - exfalso. apply Hnot. left. reflexivity.
  - apply IH. intros Hin. apply Hnot. right. exact Hin.
Qed.

Lemma combine_replace_column s labels cols :
  combine labels (replace_column key s labels cols)
  = map (assign key s) (combine labels cols).
Proof.
  revert cols. induction labels as [|l labels IH]; intros cols; [reflexivity|].
  destruct cols as [|c cols]; [reflexivity|].
  cbn [replace_column combine map]. rewrite IH. reflexivity.
Qed.

Lemma filter_assign_same s its :
  filter sel (map (assign key s) its) = map (fun p => (fst p, s)) (filter sel its).
Proof.
  induction its as [|[l c] its IH]; [reflexivity|].
  cbn [map filter].
  change (assign key s (l, c)) with (l, if String.eqb l key then s else c).
  cbn [fst]. destruct (String.eqb l key); cbn [map fst]; rewrite IH; reflexivity.
Qed.

Lemma filter_assign_other key' s its :
  key <> key' ->
  filter sel (map (assign key' s) its) = filter sel its.
Proof.
  intros Hne. induction its as [|[l c] its IH]; [reflexivity|].
  cbn [map filter].
  change (assign key' s (l, c)) with (l, if String.eqb l key' then s else c).
  cbn [fst]. destruct (String.eqb_spec l key) as [->|Hlk]; rewrite IH; [|reflexivity].
  destruct (String.eqb_spec key key') as [Heq|_]; [contradiction|reflexivity].
Qed.

Lemma getitem_inv df s :
  getitem df key = Ok s ->
  is_multiindex (columns df) = false /\
  exists l, filter sel (items df) = [(l, s)].
Proof.
  unfold getitem.
  destruct (filter _ (items df)) as [|[l c] [|p rest]]; try discriminate.
  destruct (is_multiindex (columns df)); [discriminate|].
  intros H. injection H as ->. split; [reflexivity|]. exists l. reflexivity.
Qed.

Lemma getitem_intro df l s :
  is_multiindex (columns df) = false ->
  filter sel (items df) = [(l, s)] ->
  getitem df key = Ok s.
Proof.
  intros Hflat Hsel. unfold getitem. rewrite Hsel, Hflat. reflexivity.
Qed.

Lemma record_get_unique (f : Series -> scalar) its l s :
  filter sel its = [(l, s)] ->
  record_get (map (fun p => (fst p, f (snd p))) its) key = Some (f s).
Proof.
  induction its as [|[l' c] its IH]; [discriminate|].
  cbn [filter map record_get fst snd].
  destruct (String.eqb l' key).
  - intros H. injection H as _ -> _. reflexivity.
  - exact IH.
Qed.

End Selection.

Lemma setitem_existing df key c s :
  getitem df key = Ok c ->
  index (setitem df key s) = index df /\
  columns (setitem df key s) = columns df /\
  items (setitem df key s) = map (assign key s) (items df).
Proof.
  intros Hget. destruct (getitem_inv _ _ _ Hget) as [_ [l Hsel]].
  unfold setitem.
  rewrite (existsb_key_of_filter key _ (data df))
    by (fold (items df); rewrite Hsel; discriminate).
  repeat split. unfold items at 1. cbn [columns data].
  apply combine_replace_column.
Qed.

Lemma getitem_setitem df key c s key' :
  getitem df key = Ok c ->
  getitem (setitem df key s) key'
  = if String.eqb key' key then Ok s else getitem df key'.
Proof.
  intros Hget.
  destruct (setitem_existing df key c s Hget) as [_ [Hcols Hitems]].
  destruct (getitem_inv _ _ _ Hget) as [Hflat [l Hsel]].
  destruct (String.eqb_spec key' key) as [->|Hne].
  - apply (getitem_intro key _ l); [rewrite Hcols; exact Hflat|].
    rewrite Hitems, filter_assign_same, Hsel. reflexivity.
  - unfold getitem. rewrite Hitems, Hcols.
    rewrite (filter_assign_other key' key s (items df) Hne). reflexivity.
Qed.

(* ---------------------------------------------------------------------- *)
(** ** Rounding *)

Lemma rint_nearest q :
  (- (1 # 2) <= q - inject_Z (rint q) <= 1 # 2)%Q.
Proof.
  unfold rint.
  pose proof (Qfloor_le q) as Hlo.
  pose proof (Qlt_floor q) as Hhi.
  rewrite inject_Z_plus in Hhi. change (inject_Z 1) with 1%Q in Hhi.
  destruct (q - inject_Z (Qfloor q) ?= 1 # 2)%Q eqn:Hcmp.
  - apply Qeq_alt in Hcmp.
    destruct (Z.even (Qfloor q)); [|rewrite inject_Z_plus; change (inject_Z 1) with 1%Q]; lra.
  - apply Qlt_alt in Hcmp. lra.
  - apply Qgt_alt in Hcmp. rewrite inject_Z_plus. change (inject_Z 1) with 1%Q. lra.
Qed.

(** At a tie [rint] returns the even neighbour. *)
Lemma rint_tie_even k : Z.even (rint (inject_Z k + (1 # 2))) = true.
Proof.
  unfold rint.
  assert (Hf : Qfloor (inject_Z k + (1 # 2)) = k).
  { pose proof (Qfloor_le (inject_Z k + (1 # 2))) as Hlo.
    pose proof (Qlt_floor (inject_Z k + (1 # 2))) as Hhi.
    set (f := Qfloor (inject_Z k + (1 # 2))) in *.
    rewrite inject_Z_plus in Hhi. change (inject_Z 1) with 1%Q in Hhi.
    assert (H1 : (inject_Z f <= inject_Z k)%Q).
    { rewrite <- Zle_Qle. apply Z.lt_succ_r. rewrite Zlt_Qlt.
      unfold Z.succ. rewrite inject_Z_plus. change (inject_Z 1) with 1%Q. lra. }
    assert (H2 : (inject_Z k <= inject_Z f)%Q).
    { rewrite <- Zle_Qle. apply Z.lt_succ_r. rewrite Zlt_Qlt.
      unfold Z.succ. rewrite inject_Z_plus. change (inject_Z 1) with 1%Q. lra. }
    rewrite <- Zle_Qle in H1, H2. lia. }
  rewrite Hf.
  assert (Hc : (inject_Z k + (1 # 2) - inject_Z k ?= 1 # 2)%Q = Eq)
    by (apply Qeq_alt; ring).
  rewrite Hc. destruct (Z.even k) eqn:He; [exact He|].
  rewrite Z.even_add, He. reflexivity.
Qed.

(* ---------------------------------------------------------------------- *)
(** ** Reductions over a column *)

Section Reduce.

Variable op : Q -> Q -> Q.
Variable R : Q -> Q -> Prop.

Hypothesis R_refl : forall a, R a a.
Hypothesis R_trans : forall a b c, R a b -> R b c -> R a c.
Hypothesis op_choice : forall a x, op a x = a \/ op a x = x.
Hypothesis op_left : forall a x, R a (op a x).
Hypothesis op_right : forall a x, R x (op a x).

Lemma nan_reduce_spec xs : forall acc,
  match nan_reduce op acc xs with
  | Some v => (acc = Some v \/ In (Some v) xs) /\
              (forall a, acc = Some a -> R a v) /\
              (forall x, In (Some x) xs -> R x v)
  | None => acc = None /\ forall x, In x xs -> x = NaN
  end.
Proof.
  induction xs as [|[x|] xs IH]; intros acc; cbn [nan_reduce].
  - destruct acc as [a|].
    + split; [left; reflexivity|]. split.
      * intros a' Ha. injection Ha as <-. apply R_refl.
      * intros x [].
    + split; [reflexivity|]. intros x [].
  - specialize (IH (match acc with None => Some x | Some a => Some (op a x) end)).
    destruct (nan_reduce op _ xs) as [v|].
    + destruct IH as [Hin [Hacc Hall]]. split; [|split].
      * destruct Hin as [Hacc'|Hin]; [|right; right; exact Hin].
        destruct acc as [a|].
        -- injection Hacc' as Hv.
           destruct (op_choice a x) as [Ho|Ho]; rewrite Ho in Hv; subst v.
           ++ left. reflexivity.
           ++ right. left. reflexivity.
        -- right. left. exact Hacc'.
      * intros a Ha. subst acc.
        apply (R_trans _ (op a x)); [apply op_left|]. apply Hacc. reflexivity.
      * intros y [Hy|Hy]; [|apply Hall; exact Hy].
        injection Hy as ->. destruct acc as [a|].
        -- apply (R_trans _ (op a y)); [apply op_right|]. apply Hacc. reflexivity.
        -- apply Hacc. reflexivity.
    + destruct IH as [Hacc _]. destruct acc; discriminate Hacc.
  - specialize (IH acc).
    destruct (nan_reduce op acc xs) as [v|].
    + destruct IH as [Hin [Hacc Hall]]. split; [|split].
      * destruct Hin as [Hin|Hin]; [left; exact Hin|right; right; exact Hin].
      * exact Hacc.
      * intros y [Hy|Hy]; [discriminate Hy|apply Hall; exact Hy].
    + destruct IH as [Hacc Hall]. split; [exact Hacc|].
      intros y [Hy|Hy]; [symmetry; exact Hy|apply Hall; exact Hy].
Qed.

End Reduce.

Lemma nanmax_is_max xs : is_max_of xs (nanmax xs).
Proof.
  unfold nanmax, is_max_of.
  pose proof (nan_reduce_spec Qmax' Qle) as H.
  specialize (H Qle_refl Qle_trans).
  assert (Hc : forall a x, Qmax' a x = a \/ Qmax' a x = x)
    by (intros a x; unfold Qmax'; destruct (Qlt_le_dec a x); auto).
  assert (Hl : forall a x, (a <= Qmax' a x)%Q)
    by (intros a x; unfold Qmax'; destruct (Qlt_le_dec a x); lra).
  assert (Hr : forall a x, (x <= Qmax' a x)%Q)
    by (intros a x; unfold Qmax'; destruct (Qlt_le_dec a x); lra).
  specialize (H Hc Hl Hr xs NaN).
  destruct (nan_reduce Qmax' NaN xs) as [v|].
  - destruct H as [[Habs|Hin] [_ Hall]]; [discriminate Habs|]. split; assumption.
  - apply H.
Qed.

Lemma nanmin_is_min xs : is_min_of xs (nanmin xs).
Proof.
  unfold nanmin, is_min_of.
  pose proof (nan_reduce_spec Qmin' (fun a v => (v <= a)%Q)) as H.
  specialize (H Qle_refl (fun a b c Hab Hbc => Qle_trans _ _ _ Hbc Hab)).
  assert (Hc : forall a x, Qmin' a x = a \/ Qmin' a x = x)
    by (intros a x; unfold Qmin'; destruct (Qlt_le_dec x a); auto).
  assert (Hl : forall a x, (Qmin' a x <= a)%Q)
    by (intros a x; unfold Qmin'; destruct (Qlt_le_dec x a); lra).
  assert (Hr : forall a x, (Qmin' a x <= x)%Q)
    by (intros a x; unfold Qmin'; destruct (Qlt_le_dec x a); lra).
  specialize (H Hc Hl Hr xs NaN).
  destruct (nan_reduce Qmin' NaN xs) as [v|].
  - destruct H as [[Habs|Hin] [_ Hall]]; [discriminate Habs|]. split; assumption.
  - apply H.
Qed.

(* ---------------------------------------------------------------------- *)
(** ** The latest close *)

Lemma latest_or_all_missing bars :
  Forall (fun b => bar_close b = NaN) bars \/ exists c, is_latest_close bars c.
Proof.
  induction bars as [|b bars IH]; [left; constructor|].
  destruct IH as [Hall|[c [earlier [bar [later [Hsplit [Hc Hlater]]]]]]].
  - destruct (bar_close b) as [c|] eqn:Hb.
    + right. exists c, [], b, bars. repeat split; assumption.
    + left. constructor; assumption.
  - right. exists c, (b :: earlier), bar, later.
    subst bars. repeat split; assumption.
Qed.

Lemma latest_close_exists bars :
  (exists b, In b bars /\ bar_close b <> NaN) -> exists c, is_latest_close bars c.
Proof.
  intros [b [Hin Hb]].
  destruct (latest_or_all_missing bars) as [Hall|H]; [|exact H].
  exfalso. apply Hb. rewrite Forall_forall in Hall. apply Hall. exact Hin.
Qed.

Lemma iloc_last_dropna bars c :
  is_latest_close bars c ->
  iloc_last (dropna (Float64 (map bar_close bars))) = Ok (SFloat (Some c)).
Proof.
  intros [earlier [bar [later [-> [Hc Hlater]]]]].
  rewrite map_app. cbn [map]. rewrite Hc.
  assert (Hdrop : dropna (Float64 (map bar_close later)) = Float64 []).
  { apply dropna_all_missing. rewrite Forall_map. exact Hlater. }
  cbn [dropna] in *. injection Hdrop as Hdrop.
  rewrite filter_app. cbn [filter isna negb]. rewrite Hdrop.
  unfold iloc_last. cbn [values]. rewrite map_app, rev_app_distr. reflexivity.
Qed.

Lemma latest_close_spec df bars c :
  getitem df "Close" = Ok (Float64 (map bar_close bars)) ->
  is_latest_close bars c ->
  latest_close df = Ok (Some c).
Proof.
  intros Hget Hc. unfold latest_close. rewrite Hget. cbn [rbind].
  rewrite (iloc_last_dropna _ _ Hc). reflexivity.
Qed.

(* ---------------------------------------------------------------------- *)
(** ** The chart frame: index to column, rounding, records *)

Lemma holds_flatten df bars :
  holds df bars -> holds (flatten df) bars /\ is_multiindex (columns (flatten df)) = false.
Proof.
  intros [Hix [Hdate Hcols]]. split.
  - unfold holds. rewrite flatten_idempotent.
    split; [|split; [|exact Hcols]].
    + destruct df as [ix [labels|tuples] dat]; exact Hix.
    + destruct df as [ix [labels|tuples] dat]; exact Hdate.
  - destruct df as [ix [labels|tuples] dat]; reflexivity.
Qed.

Lemma serializable_spec df stamps :
  is_multiindex (columns df) = false ->
  index df = DatetimeIndex (Some "Date") stamps ->
  ~ In "Date" (get_level_values_0 (columns df)) ->
  exists df',
    serializable df = Ok df' /\
    index df' = RangeIndex (length stamps) /\
    columns df' = Index ("Date" :: get_level_values_0 (columns df)) /\
    getitem df' "Date" = Ok (Object (map strftime_ymd stamps)) /\
    forall key, key <> "Date" -> getitem df' key = getitem df key.
Proof.
  destruct df as [ix [labels|tuples] dat]; [|discriminate].
  cbn [index columns get_level_values_0]. intros _ -> Hdate.
  set (df1 := {| index := RangeIndex (length stamps);
                 columns := Index ("Date" :: labels);
                 data := Datetime64 stamps :: dat |}).
  assert (Hreset : reset_index {| index := DatetimeIndex (Some "Date") stamps;
                                  columns := Index labels; data := dat |} = Ok df1).
  { unfold reset_index. cbn [index columns data get_level_values_0 index_len].
    rewrite (existsb_key_notin "Date" labels Hdate). reflexivity. }
  assert (Hget1 : getitem df1 "Date" = Ok (Datetime64 stamps)).
  { unfold getitem, items, df1. cbn [columns data get_level_values_0 combine filter fst].
    cbn [String.eqb Ascii.eqb Bool.eqb andb].
    rewrite (filter_key_notin "Date" labels dat Hdate). reflexivity. }
  assert (Hother : forall key, key <> "Date" ->
            getitem df1 key
            = getitem {| index := DatetimeIndex (Some "Date") stamps;
                         columns := Index labels; data := dat |} key).
  { intros key Hne. unfold getitem, items, df1.
    cbn [columns data get_level_values_0 combine filter fst is_multiindex].
    destruct (String.eqb_spec "Date" key) as [Heq|_]; [congruence|reflexivity]. }
  exists (setitem df1 "Date" (Object (map strftime_ymd stamps))).
  destruct (setitem_existing df1 "Date" _ (Object (map strftime_ymd stamps)) Hget1)
    as [Hix [Hcols _]].
  split; [|split; [exact Hix|split; [exact Hcols|split]]].
  - unfold serializable. rewrite Hreset. cbn [rbind]. rewrite Hget1. reflexivity.
  - rewrite (getitem_setitem _ _ _ _ _ Hget1). reflexivity.
  - intros key Hne. rewrite (getitem_setitem _ _ _ _ _ Hget1).
    destruct (String.eqb_spec key "Date") as [Heq|_]; [contradiction|].
    apply Hother. exact Hne.
Qed.

Lemma round_columns_spec df os hs ls cs :
  getitem df "Open" = Ok (Float64 os) ->
  getitem df "High" = Ok (Float64 hs) ->
  getitem df "Low" = Ok (Float64 ls) ->
  getitem df "Close" = Ok (Float64 cs) ->
  exists tbl,
    round_columns numeric_cols df = Ok tbl /\
    index tbl = index df /\
    columns tbl = columns df /\
    getitem tbl "Open" = Ok (Float64 (map (round_float 2) os)) /\
    getitem tbl "High" = Ok (Float64 (map (round_float 2) hs)) /\
    getitem tbl "Low" = Ok (Float64 (map (round_float 2) ls)) /\
    getitem tbl "Close" = Ok (Float64 (map (round_float 2) cs)) /\
    forall key, ~ In key numeric_cols -> getitem tbl key = getitem df key.
Proof.
  intros Ho Hh Hl Hc.
  set (d1 := setitem df "Open" (Float64 (map (round_float 2) os))).
  pose proof (fun k => getitem_setitem df "Open" _ (Float64 (map (round_float 2) os)) k Ho) as G1.
  fold d1 in G1.
  assert (Hh1 : getitem d1 "High" = Ok (Float64 hs)) by (rewrite G1; exact Hh).
  set (d2 := setitem d1 "High" (Float64 (map (round_float 2) hs))).
  pose proof (fun k => getitem_setitem d1 "High" _ (Float64 (map (round_float 2) hs)) k Hh1) as G2.
  fold d2 in G2.
  assert (Hl2 : getitem d2 "Low" = Ok (Float64 ls)) by (rewrite G2, G1; exact Hl).
  set (d3 := setitem d2 "Low" (Float64 (map (round_float 2) ls))).
  pose proof (fun k => getitem_setitem d2 "Low" _ (Float64 (map (round_float 2) ls)) k Hl2) as G3.
  fold d3 in G3.
  assert (Hc3 : getitem d3 "Close" = Ok (Float64 cs)) by (rewrite G3, G2, G1; exact Hc).
  set (d4 := setitem d3 "Close" (Float64 (map (round_float 2) cs))).
  pose proof (fun k => getitem_setitem d3 "Close" _ (Float64 (map (round_float 2) cs)) k Hc3) as G4.
  fold d4 in G4.
  destruct (setitem_existing df "Open" _ (Float64 (map (round_float 2) os)) Ho) as [I1 [C1 _]].
  destruct (setitem_existing d1 "High" _ (Float64 (map (round_float 2) hs)) Hh1) as [I2 [C2 _]].
  destruct (setitem_existing d2 "Low" _ (Float64 (map (round_float 2) ls)) Hl2) as [I3 [C3 _]].
  destruct (setitem_existing d3 "Close" _ (Float64 (map (round_float 2) cs)) Hc3) as [I4 [C4 _]].
  fold d1 in I1, C1. fold d2 in I2, C2. fold d3 in I3, C3. fold d4 in I4, C4.
  exists d4. repeat split.
  - unfold numeric_cols. cbn [round_columns].
    rewrite Ho. cbn [rbind series_round]. fold d1.
    rewrite Hh1. cbn [rbind series_round]. fold d2.
    rewrite Hl2. cbn [rbind series_round]. fold d3.
    rewrite Hc3. reflexivity.
  - congruence.
  - congruence.
  - rewrite G4, G3, G2, G1. reflexivity.
  - rewrite G4, G3, G2. reflexivity.
  - rewrite G4, G3. reflexivity.
  - rewrite G4. reflexivity.
  - intros key Hnot. rewrite G4, G3, G2, G1.
    unfold numeric_cols in Hnot. cbn [In] in Hnot.
    destruct (String.eqb_spec key "Close") as [->|_]; [exfalso; tauto|].
    destruct (String.eqb_spec key "Low") as [->|_]; [exfalso; tauto|].
    destruct (String.eqb_spec key "High") as [->|_]; [exfalso; tauto|].
    destruct (String.eqb_spec key "Open") as [->|_]; [exfalso; tauto|].
    reflexivity.
Qed.

Lemma to_dict_records_length df :
  length (to_dict_records df) = index_len (index df).
Proof. unfold to_dict_records. rewrite length_map, length_seq. reflexivity. Qed.

Lemma to_dict_records_nth df i :
  (i < index_len (index df))%nat ->
  nth_error (to_dict_records df) i = Some (record_at df i).
Proof.
  intros Hi. unfold to_dict_records.
  rewrite nth_error_map, nth_error_seq.
  destruct (Nat.ltb_spec i (index_len (index df))) as [_|Hge]; [reflexivity|lia].
Qed.

Lemma record_at_get df key s i :
  getitem df key = Ok s ->
  record_get (record_at df i) key = Some (series_get s i).
Proof.
  intros Hget. destruct (getitem_inv _ _ _ Hget) as [_ [l Hsel]].
  unfold record_at.
  exact (record_get_unique key (fun c => series_get c i) _ _ _ Hsel).
Qed.

Lemma series_get_float {A} (f : A -> float) xs i x :
  nth_error xs i = Some x -> series_get (Float64 (map f xs)) i = SFloat (f x).
Proof.
  intros H. unfold series_get. cbn [values]. rewrite map_map.
  apply nth_error_nth. apply (map_nth_error (fun a => SFloat (f a))). exact H.
Qed.

Lemma series_get_int {A} (f : A -> Z) xs i x :
  nth_error xs i = Some x -> series_get (Int64 (map f xs)) i = SInt (f x).
Proof.
  intros H. unfold series_get. cbn [values]. rewrite map_map.
  apply nth_error_nth. apply (map_nth_error (fun a => SInt (f a))). exact H.
Qed.

Lemma series_get_object {A} (f : A -> string) xs i x :
  nth_error xs i = Some x -> series_get (Object (map f xs)) i = SStr (f x).
Proof.
  intros H. unfold series_get. cbn [values]. rewrite map_map.
  apply nth_error_nth. apply (map_nth_error (fun a => SStr (f a))). exact H.
Qed.

(* ---------------------------------------------------------------------- *)
(** ** The derivation stage on well-formed frames *)

Lemma derive_cards t dfc dfm out :
  derive t dfc dfm = Ok out ->
  exists c hi lo,
    latest_close dfm = Ok c /\
    week_52_high dfm = Ok hi /\
    week_52_low dfm = Ok lo /\
    latest_close_card out = metric_card "Latest Close" c /\
    week_52_high_card out = metric_card "52-Week High" hi /\
    week_52_low_card out = metric_card "52-Week Low" lo.
Proof.
  unfold derive. intros H. rinv H. injection H as <-.
  eexists _, _, _. repeat split; eassumption.
Qed.

Lemma derive_ok t dc dm cbars mbars c :
  holds dc cbars -> is_multiindex (columns dc) = false ->
  holds dm mbars -> is_multiindex (columns dm) = false ->
  is_latest_close mbars c ->
  exists fc fp tbl,
    derive t dc dm
    = Ok {| candlestick_chart := fc;
            price_chart := fp;
            latest_close_card := metric_card "Latest Close" (Some c);
            week_52_high_card := metric_card "52-Week High" (nanmax (map bar_high mbars));
            week_52_low_card := metric_card "52-Week Low" (nanmin (map bar_low mbars));
            table_data := to_dict_records tbl;
            table_columns := column_specs tbl |} /\
    index tbl = RangeIndex (length cbars) /\
    columns tbl = Index ("Date" :: get_level_values_0 (columns dc)) /\
    getitem tbl "Date" = Ok (Object (map strftime_ymd (map bar_date cbars))) /\
    getitem tbl "Open" = Ok (Float64 (map (round_float 2) (map bar_open cbars))) /\
    getitem tbl "High" = Ok (Float64 (map (round_float 2) (map bar_high cbars))) /\
    getitem tbl "Low" = Ok (Float64 (map (round_float 2) (map bar_low cbars))) /\
    getitem tbl "Close" = Ok (Float64 (map (round_float 2) (map bar_close cbars))) /\
    getitem tbl "Volume" = Ok (Int64 (map bar_volume cbars)).
Proof.
  intros [Hix [Hdate [Ho [Hh [Hl [Hc Hv]]]]]] Hflat
         [_ [_ [_ [Hmh [Hml [Hmc _]]]]]] Hmflat Hlatest.
  rewrite (flatten_flat dc Hflat) in Ho, Hh, Hl, Hc, Hv.
  rewrite (flatten_flat dm Hmflat) in Hmh, Hml, Hmc.
  destruct (serializable_spec dc _ Hflat Hix Hdate)
    as [d' [Hser [Hix' [Hcols' [Hd Hoth]]]]].
  assert (Ho' : getitem d' "Open" = Ok (Float64 (map bar_open cbars)))
    by (rewrite Hoth; [exact Ho|discriminate]).
  assert (Hh' : getitem d' "High" = Ok (Float64 (map bar_high cbars)))
    by (rewrite Hoth; [exact Hh|discriminate]).
  assert (Hl' : getitem d' "Low" = Ok (Float64 (map bar_low cbars)))
    by (rewrite Hoth; [exact Hl|discriminate]).
  assert (Hc' : getitem d' "Close" = Ok (Float64 (map bar_close cbars)))
    by (rewrite Hoth; [exact Hc|discriminate]).
  assert (Hv' : getitem d' "Volume" = Ok (Int64 (map bar_volume cbars)))
    by (rewrite Hoth; [exact Hv|discriminate]).
  destruct (round_columns_spec d' _ _ _ _ Ho' Hh' Hl' Hc')
    as [tbl [Hround [Tix [Tcols [To [Th [Tl [Tc Tother]]]]]]]].
  eexists _, _, tbl. split; [|repeat split].
  - unfold derive. rewrite Hser. cbn [rbind].
    unfold candlestick_figure, price_figure, to_list, float_list, rmap.
    rewrite Hd, Ho', Hh', Hl', Hc', Hv'. cbn [rbind astype_float].
    rewrite (latest_close_spec dm mbars c Hmc Hlatest). cbn [rbind].
    unfold week_52_high, week_52_low. rewrite Hmh, Hml. cbn [rbind max_float min_float].
    rewrite Hround. cbn [rbind]. reflexivity.
  - rewrite Tix, Hix', length_map. reflexivity.
  - rewrite Tcols. exact Hcols'.
  - rewrite Tother; [exact Hd|].
    unfold numeric_cols. cbn [In]. intros [H|[H|[H|[H|[]]]]]; discriminate H.
  - exact To.
  - exact Th.
  - exact Tl.
  - exact Tc.
  - rewrite Tother; [exact Hv'|].
    unfold numeric_cols. cbn [In]. intros [H|[H|[H|[H|[]]]]]; discriminate H.
Qed.

Lemma holds_not_empty df bars : holds df bars -> bars <> [] -> empty (flatten df) = false.
Proof.
  intros [Hix [_ [Ho _]]] Hne. unfold empty. apply orb_false_intro.
  - fold (rows (flatten df)). rewrite flatten_rows. unfold rows. rewrite Hix.
    cbn [index_len]. rewrite length_map.
    destruct bars; [contradiction|reflexivity].
  - destruct (getitem_inv _ _ _ Ho) as [_ [l Hsel]].
    unfold columns_len. unfold items in Hsel.
    destruct (get_level_values_0 (columns (flatten df))); [discriminate Hsel|reflexivity].
Qed.

(** A run on two well-formed responses, of which the metrics one has a
    bar with a close: the outputs and the log. *)
Lemma run_ok yf today n t s e dfc dfm cbars mbars c :
  t <> "" ->
  yf (chart_request t s e) = Ok dfc ->
  yf (metrics_request today t) = Ok dfm ->
  holds dfc cbars -> holds dfm mbars ->
  cbars <> [] -> mbars <> [] ->
  is_latest_close mbars c ->
  exists fc fp tbl,
    run yf today n (Some t) s e
    = (Ok {| candlestick_chart := fc;
             price_chart := fp;
             latest_close_card := metric_card "Latest Close" (Some c);
             week_52_high_card := metric_card "52-Week High" (nanmax (map bar_high mbars));
             week_52_low_card := metric_card "52-Week Low" (nanmin (map bar_low mbars));
             table_data := to_dict_records tbl;
             table_columns := column_specs tbl |},
       [chart_request t s e; metrics_request today t]) /\
    index tbl = RangeIndex (length cbars) /\
    columns tbl = Index ("Date" :: get_level_values_0 (columns dfc)) /\
    getitem tbl "Date" = Ok (Object (map strftime_ymd (map bar_date cbars))) /\
    getitem tbl "Open" = Ok (Float64 (map (round_float 2) (map bar_open cbars))) /\
    getitem tbl "High" = Ok (Float64 (map (round_float 2) (map bar_high cbars))) /\
    getitem tbl "Low" = Ok (Float64 (map (round_float 2) (map bar_low cbars))) /\
    getitem tbl "Close" = Ok (Float64 (map (round_float 2) (map bar_close cbars))) /\
    getitem tbl "Volume" = Ok (Int64 (map bar_volume cbars)).
Proof.
  intros Ht Hyc Hym Hc Hm Hcne Hmne Hlatest.
  destruct (holds_flatten _ _ Hc) as [Hc' Hcflat].
  destruct (holds_flatten _ _ Hm) as [Hm' Hmflat].
  destruct (derive_ok t _ _ _ _ _ Hc' Hcflat Hm' Hmflat Hlatest)
    as [fc [fp [tbl [Hderive Htbl]]]].
  exists fc, fp, tbl. split.
  - rewrite nonempty_ticker_runs by assumption.
    rewrite (fetch_both_answer _ _ _ _ _ _ _ Hyc Hym).
    rewrite (holds_not_empty _ _ Hc Hcne), (holds_not_empty _ _ Hm Hmne).
    cbn [orb]. rewrite Hderive. reflexivity.
  - replace (get_level_values_0 (columns dfc))
      with (get_level_values_0 (columns (flatten dfc)))
      by (destruct dfc as [ix [labels|tuples] dat]; reflexivity).
    exact Htbl.
Qed.

(* ---------------------------------------------------------------------- *)
(** ** The sample responses are well formed *)

Lemma two_days_holds q : holds (two_days q) sample_bars.
Proof.
  destruct q as [tk|]; unfold holds; cbn [two_days sample_frame index columns];
    (split; [reflexivity|]); (split; [|repeat split; reflexivity]);
    cbn; intros H; repeat (destruct H as [H|H]; [discriminate H|]); exact H.
Qed.

Lemma three_days_holds : holds three_days_last_close_missing sample_metric_bars.
Proof.
  unfold holds. split; [reflexivity|]. split; [|repeat split; reflexivity].
  cbn. intros H; repeat (destruct H as [H|H]; [discriminate H|]); exact H.
Qed.

(* ---------------------------------------------------------------------- *)
(** ** Summary metrics *)

(** C1.  When both fetches answer with non-empty well-formed series and
    some bar of the metrics series has a close, the run returns outputs
    whose three cards are computed from the metrics series alone: the
    latest-close card shows the close of the last bar whose close is not
    missing (later bars with a missing close are skipped), the 52-week
    high card shows the maximum of the highs of all its bars and the
    52-week low card the minimum of the lows of all its bars. *)
Theorem C1_metrics_from_metric_series :
  forall yf today n t s e dfc dfm cbars mbars,
    t <> "" ->
    yf (chart_request t s e) = Ok dfc ->
    yf (metrics_request today t) = Ok dfm ->
    holds dfc cbars -> holds dfm mbars ->
    cbars <> [] -> mbars <> [] ->
    (exists b, In b mbars /\ bar_close b <> NaN) ->
    exists out c hi lo,
      run yf today n (Some t) s e
        = (Ok out, [chart_request t s e; metrics_request today t]) /\
      latest_close_card out = metric_card "Latest Close" (Some c) /\
      is_latest_close mbars c /\
      week_52_high_card out = metric_card "52-Week High" hi /\
      is_max_of (map bar_high mbars) hi /\
      week_52_low_card out = metric_card "52-Week Low" lo /\
      is_min_of (map bar_low mbars) lo.
Proof.
  intros yf today n t s e dfc dfm cbars mbars Ht Hyc Hym Hc Hm Hcne Hmne Hsome.
  destruct (latest_close_exists _ Hsome) as [c Hlatest].
  destruct (run_ok yf today n t s e dfc dfm cbars mbars c
              Ht Hyc Hym Hc Hm Hcne Hmne Hlatest)
    as [fc [fp [tbl [Hrun _]]]].
  eexists _, c, (nanmax (map bar_high mbars)), (nanmin (map bar_low mbars)).
  split; [exact Hrun|]. cbn [latest_close_card week_52_high_card week_52_low_card].
  split; [reflexivity|]. split; [exact Hlatest|].
  split; [reflexivity|]. split; [apply nanmax_is_max|].
  split; [reflexivity|apply nanmin_is_min].
Qed.

Lemma C1_metrics_from_metric_series_witness :
  exists out c hi lo,
    run (provider_of (Ok (two_days None)) (Ok three_days_last_close_missing))
        739923%Z 1%Z (Some "AAPL") (Some "2024-01-01") (Some "2024-06-30")
      = (Ok out, [chart_request "AAPL" (Some "2024-01-01") (Some "2024-06-30");
                  metrics_request 739923%Z "AAPL"]) /\
    latest_close_card out = metric_card "Latest Close" (Some c) /\
    is_latest_close sample_metric_bars c /\
    week_52_high_card out = metric_card "52-Week High" hi /\
    is_max_of (map bar_high sample_metric_bars) hi /\
    week_52_low_card out = metric_card "52-Week Low" lo /\
    is_min_of (map bar_low sample_metric_bars) lo.
Proof.
  apply (C1_metrics_from_metric_series
           (provider_of (Ok (two_days None)) (Ok three_days_last_close_missing))
           739923%Z 1%Z "AAPL" (Some "2024-01-01") (Some "2024-06-30")
           (two_days None) three_days_last_close_missing
           sample_bars sample_metric_bars).
  - discriminate.
  - reflexivity.
  - reflexivity.
  - exact (two_days_holds None).
  - exact three_days_holds.
  - discriminate.
  - discriminate.
  - eexists. split; [left; reflexivity|]. discriminate.
Defined.

(** C7.  On a non-empty metrics series whose bars all carry a low and a
    high with low <= high (the provider guarantee, which the code does
    not check), both extremes are numbers and the 52-week high is not
    below the 52-week low; these are the values shown on the two cards
    of any outputs derived from that series. *)
Theorem C7_high_not_below_low :
  forall dfm bars,
    bars <> [] ->
    getitem dfm "High" = Ok (Float64 (map bar_high bars)) ->
    getitem dfm "Low" = Ok (Float64 (map bar_low bars)) ->
    Forall low_le_high bars ->
    exists hi lo,
      week_52_high dfm = Ok (Some hi) /\
      week_52_low dfm = Ok (Some lo) /\
      (lo <= hi)%Q /\
      forall t dfc out,
        derive t dfc dfm = Ok out ->
        week_52_high_card out = metric_card "52-Week High" (Some hi) /\
        week_52_low_card out = metric_card "52-Week Low" (Some lo).
Proof.
  intros dfm bars Hne Hh Hl Hall.
  destruct bars as [|b0 bars]; [contradiction|].
  pose proof (Forall_inv Hall) as Hb0. unfold low_le_high in Hb0.
  destruct (bar_low b0) as [l0|] eqn:Hl0; [|contradiction].
  destruct (bar_high b0) as [h0|] eqn:Hh0; [|contradiction].
  pose proof (nanmax_is_max (map bar_high (b0 :: bars))) as Hmax.
  pose proof (nanmin_is_min (map bar_low (b0 :: bars))) as Hmin.
  assert (Hhw : week_52_high dfm = Ok (nanmax (map bar_high (b0 :: bars))))
    by (unfold week_52_high; rewrite Hh; reflexivity).
  assert (Hlw : week_52_low dfm = Ok (nanmin (map bar_low (b0 :: bars))))
    by (unfold week_52_low; rewrite Hl; reflexivity).
  assert (Hin_h : In (Some h0) (map bar_high (b0 :: bars)))
    by (left; exact Hh0).
  assert (Hin_l : In (Some l0) (map bar_low (b0 :: bars)))
    by (left; exact Hl0).
  destruct (nanmax (map bar_high (b0 :: bars))) as [hi|];
    [|discriminate (Hmax _ Hin_h)].
  destruct (nanmin (map bar_low (b0 :: bars))) as [lo|];
    [|discriminate (Hmin _ Hin_l)].
  destruct Hmax as [_ Hmax]. destruct Hmin as [_ Hmin].
  specialize (Hmax _ Hin_h). specialize (Hmin _ Hin_l).
  exists hi, lo. split; [exact Hhw|]. split; [exact Hlw|]. split; [lra|].
  intros t dfc out Hderive.
  destruct (derive_cards _ _ _ _ Hderive) as [c [hi' [lo' [_ [Hh' [Hl' [_ [Hch Hcl]]]]]]]].
  rewrite Hhw in Hh'. rewrite Hlw in Hl'.
  injection Hh' as <-. injection Hl' as <-. split; assumption.
Qed.

Lemma C7_high_not_below_low_witness :
  exists hi lo,
    week_52_high (flatten three_days_last_close_missing) = Ok (Some hi) /\
    week_52_low (flatten three_days_last_close_missing) = Ok (Some lo) /\
    (lo <= hi)%Q.
Proof.
  destruct (C7_high_not_below_low (flatten three_days_last_close_missing)
              sample_metric_bars)
    as [hi [lo [Hh [Hl [Hle _]]]]].
  - discriminate.
  - reflexivity.
  - reflexivity.
  - repeat constructor; unfold low_le_high, Qle; simpl; lia.
  - exists hi, lo. repeat split; assumption.
Defined.

(* ---------------------------------------------------------------------- *)
(** ** The table *)

Lemma float_days_holds q : holds (float_days q) float_bars.
Proof.
  destruct q as [tk|]; unfold holds; cbn [float_days sample_frame index columns];
    (split; [reflexivity|]); (split; [|repeat split; reflexivity]);
    cbn; intros H; repeat (destruct H as [H|H]; [discriminate H|]); exact H.
Qed.

(** C2 (as the code has it).  When both fetches answer with non-empty
    well-formed series and some bar of the metrics series has a close
    (without one the run raises before the table is built), the table has
    exactly one record per bar of the chart series.  In the record of each
    bar, Open, High, Low and Close are the bar's values after numpy's
    [round(2)] on float64: the float64 product with 100, [rint] with ties
    to even, the float64 quotient by 100 (so 123.456 becomes 123.46, while
    the exact halves 101.125 and 0.125 become 101.12 and 0.12); a missing
    value stays missing.  Volume is the bar's volume and Date the bar's
    day as text, both as they are; and the column list is the frame's
    labels in order, Date first, each with its name as display label.
    The prices are finite non-negative float64 values. *)
Theorem C2_table_rows_rounded :
  forall yf today n t s e dfc dfm cbars mbars,
    t <> "" ->
    yf (chart_request t s e) = Ok dfc ->
    yf (metrics_request today t) = Ok dfm ->
    holds dfc cbars -> holds dfm mbars ->
    cbars <> [] -> mbars <> [] ->
    (exists b, In b mbars /\ bar_close b <> NaN) ->
    Forall (fun b => float64_prices b = true) cbars ->
    exists out,
      fst (run yf today n (Some t) s e) = Ok out /\
      length (table_data out) = length cbars /\
      (forall i bar,
          nth_error cbars i = Some bar ->
          exists row,
            nth_error (table_data out) i = Some row /\
            record_get row "Open" = Some (SFloat (round_float 2 (bar_open bar))) /\
            record_get row "High" = Some (SFloat (round_float 2 (bar_high bar))) /\
            record_get row "Low" = Some (SFloat (round_float 2 (bar_low bar))) /\
            record_get row "Close" = Some (SFloat (round_float 2 (bar_close bar))) /\
            record_get row "Volume" = Some (SInt (bar_volume bar)) /\
            record_get row "Date" = Some (SStr (strftime_ymd (bar_date bar)))) /\
      table_columns out
        = map (fun name => {| col_name := name; col_id := name |})
              ("Date" :: get_level_values_0 (columns dfc)) /\
      (forall x,
          round_float 2 (Some x)
          = Some (binary64 (inject_Z (rint (binary64 (x * 100))) / 100))) /\
      (forall k, Z.even (rint (inject_Z k + (1 # 2))) = true) /\
      round_float 2 NaN = NaN /\
      round_float 2 (f64 123456) = f64 123460 /\
      round_float 2 (f64 101125) = f64 101120 /\
      round_float 2 (f64 125) = f64 120.
Proof.
  intros yf today n t s e dfc dfm cbars mbars Ht Hyc Hym Hc Hm Hcne Hmne Hsome _.
  destruct (latest_close_exists _ Hsome) as [c Hlatest].
  destruct (run_ok yf today n t s e dfc dfm cbars mbars c
              Ht Hyc Hym Hc Hm Hcne Hmne Hlatest)
    as [fc [fp [tbl [Hrun [Tix [Tcols [Td [To [Th [Tl [Tc Tv]]]]]]]]]]].
  rewrite !map_map in Td, To, Th, Tl, Tc.
  eexists. split; [rewrite Hrun; reflexivity|].
  cbn [table_data table_columns].
  split; [|split; [|split; [|split; [|split]]]].
  - rewrite to_dict_records_length, Tix. reflexivity.
  - intros i bar Hbar. exists (record_at tbl i).
    assert (Hi : (i < length cbars)%nat)
      by (apply nth_error_Some; rewrite Hbar; discriminate).
    split; [apply to_dict_records_nth; rewrite Tix; exact Hi|].
    rewrite (record_at_get _ _ _ i To), (record_at_get _ _ _ i Th),
      (record_at_get _ _ _ i Tl), (record_at_get _ _ _ i Tc),
      (record_at_get _ _ _ i Tv), (record_at_get _ _ _ i Td).
    rewrite (series_get_float (fun b => round_float 2 (bar_open b)) _ _ _ Hbar),
      (series_get_float (fun b => round_float 2 (bar_high b)) _ _ _ Hbar),
      (series_get_float (fun b => round_float 2 (bar_low b)) _ _ _ Hbar),
      (series_get_float (fun b => round_float 2 (bar_close b)) _ _ _ Hbar),
      (series_get_int bar_volume _ _ _ Hbar),
      (series_get_object (fun b => strftime_ymd (bar_date b)) _ _ _ Hbar).
    repeat split; reflexivity.
  - unfold column_specs. rewrite Tcols. reflexivity.
  - intros x. cbn [round_float option_map]. unfold np_round.
    replace (binary64 (pow10 2)) with 100%Q by (vm_compute; reflexivity).
    reflexivity.
  - exact rint_tie_even.
  - repeat split; vm_compute; reflexivity.
Qed.

Lemma C2_table_rows_rounded_witness :
  exists out,
    fst (run (provider_of (Ok (float_days (Some "AAPL"))) (Ok (float_days None)))
             739923%Z 1%Z (Some "AAPL") (Some "2024-01-01") (Some "2024-06-30"))
      = Ok out /\
    length (table_data out) = 2%nat /\
    exists row,
      nth_error (table_data out) 0 = Some row /\
      record_get row "Open" = Some (SFloat (f64 101120)) /\
      record_get row "Close" = Some (SFloat (f64 123460)) /\
      record_get row "Volume" = Some (SInt 1000).
Proof.
  destruct (C2_table_rows_rounded
              (provider_of (Ok (float_days (Some "AAPL"))) (Ok (float_days None)))
              739923%Z 1%Z "AAPL" (Some "2024-01-01") (Some "2024-06-30")
              (float_days (Some "AAPL")) (float_days None)
              float_bars float_bars)
    as [out [Hrun [Hlen [Hrows _]]]].
  - discriminate.
  - reflexivity.
  - reflexivity.
  - exact (float_days_holds (Some "AAPL")).
  - exact (float_days_holds None).
  - discriminate.
  - discriminate.
  - eexists. split; [left; reflexivity|]. discriminate.
  - repeat constructor; vm_compute; reflexivity.
  - exists out. split; [exact Hrun|]. split; [exact Hlen|].
    destruct (Hrows 0%nat _ eq_refl) as [row [Hrow [Hopen [_ [_ [Hclose [Hvol _]]]]]]].
    exists row. split; [exact Hrow|].
    split; [rewrite Hopen; vm_compute; reflexivity|].
    split; [rewrite Hclose; vm_compute; reflexivity|exact Hvol].
Defined.

(** C2 as stated fails, twice.  The chart frame holds the float64 prices
    101.125 and 0.125 as Open; both fetches succeed with two rows each.
    The table shows 101.12 and 0.12, where standard rounding gives 101.13
    and 0.13.  And when every Close of the metrics frame is missing, the
    same chart frame gives no table at all: the run raises. *)
Lemma C2_standard_rounding_counterexample :
  getitem (float_days None) "Open" = Ok (Float64 [Some (809 # 8)%Q; Some (1 # 8)%Q]) /\
  rmap (fun out => map (fun r => record_get r "Open") (table_data out))
       (fst (run (provider_of (Ok (float_days None)) (Ok (float_days None)))
                 739923%Z 1%Z (Some "AAPL") None None))
    = Ok [Some (SFloat (f64 101120)); Some (SFloat (f64 120))] /\
  standard_round_2 (809 # 8) = (10113 # 100)%Q /\
  standard_round_2 (1 # 8) = (13 # 100)%Q /\
  f64 101120 <> Some (binary64 (standard_round_2 (809 # 8))) /\
  f64 120 <> Some (binary64 (standard_round_2 (1 # 8))) /\
  rows closes_all_missing = 2%nat /\
  fst (run (provider_of (Ok (float_days None)) (Ok closes_all_missing))
           739923%Z 1%Z (Some "AAPL") None None)
    = Raise (IndexError "single positional indexer is out-of-bounds").
Proof.
  split; [vm_compute; reflexivity|].
  split; [vm_compute; reflexivity|].
  split; [vm_compute; reflexivity|].
  split; [vm_compute; reflexivity|].
  split; [vm_compute; discriminate|].
  split; [vm_compute; discriminate|].
  split; vm_compute; reflexivity.
Qed.

(* ---------------------------------------------------------------------- *)
(** ** Independence of the metrics from the chosen range *)

Lemma fetched_inv yf today t s e c m :
  fetched yf today t s e c m ->
  exists dfc dfm,
    yf (chart_request t s e) = Ok dfc /\
    yf (metrics_request today t) = Ok dfm /\
    c = flatten dfc /\ m = flatten dfm /\
    fetch yf today t s e []
      = (Ok (c, m), [chart_request t s e; metrics_request today t]).
Proof.
  unfold fetched. intros H.
  destruct (yf (chart_request t s e)) as [dfc|ex] eqn:Hc.
  - destruct (yf (metrics_request today t)) as [dfm|ex] eqn:Hm.
    + rewrite (fetch_both_answer _ _ _ _ _ _ _ Hc Hm) in H |- *.
      destruct (empty (flatten dfc) || empty (flatten dfm)); [discriminate H|].
      cbn [fst] in H. injection H as <- <-.
      exists dfc, dfm. repeat split; reflexivity.
    + rewrite (fetch_metrics_raises _ _ _ _ _ _ _ Hc Hm) in H. discriminate H.
  - rewrite (fetch_chart_raises _ _ _ _ _ _ Hc) in H. discriminate H.
Qed.

(** C6.  The metrics request is the ticker with the window from 365 days
    before today to today, whatever range was chosen; and two successful
    runs for the same ticker, provider and today, with any two chosen
    ranges, derive from the same metrics frame and show the same three
    metric cards. *)
Theorem C6_metrics_independent_of_range :
  forall yf today n1 n2 t s1 e1 s2 e2 c1 m1 c2 m2 out1 out2,
    t <> "" ->
    fetched yf today t s1 e1 c1 m1 ->
    fetched yf today t s2 e2 c2 m2 ->
    fst (run yf today n1 (Some t) s1 e1) = Ok out1 ->
    fst (run yf today n2 (Some t) s2 e2) = Ok out2 ->
    m1 = m2 /\
    nth_error (snd (run yf today n1 (Some t) s1 e1)) 1
      = Some {| tickers := t; start := DateObject (today - 365)%Z;
                end_ := DateObject today |} /\
    nth_error (snd (run yf today n2 (Some t) s2 e2)) 1
      = Some {| tickers := t; start := DateObject (today - 365)%Z;
                end_ := DateObject today |} /\
    latest_close_card out1 = latest_close_card out2 /\
    week_52_high_card out1 = week_52_high_card out2 /\
    week_52_low_card out1 = week_52_low_card out2.
Proof.
  intros yf today n1 n2 t s1 e1 s2 e2 c1 m1 c2 m2 out1 out2 Ht F1 F2 R1 R2.
  destruct (fetched_inv _ _ _ _ _ _ _ F1) as [dc1 [dm1 [_ [Hm1 [_ [-> Hf1]]]]]].
  destruct (fetched_inv _ _ _ _ _ _ _ F2) as [dc2 [dm2 [_ [Hm2 [_ [-> Hf2]]]]]].
  rewrite Hm1 in Hm2. injection Hm2 as <-.
  rewrite nonempty_ticker_runs in R1 |- * by assumption.
  rewrite nonempty_ticker_runs in R2 |- * by assumption.
  rewrite Hf1 in R1 |- *. rewrite Hf2 in R2 |- *. cbn [fst snd] in *.
  destruct (derive_cards _ _ _ _ R1) as [c [hi [lo [Hc [Hh [Hl [-> [-> ->]]]]]]]].
  destruct (derive_cards _ _ _ _ R2) as [c' [hi' [lo' [Hc' [Hh' [Hl' [-> [-> ->]]]]]]]].
  rewrite Hc in Hc'. rewrite Hh in Hh'. rewrite Hl in Hl'.
  injection Hc' as <-. injection Hh' as <-. injection Hl' as <-.
  repeat split; reflexivity.
Qed.

Lemma C6_metrics_independent_of_range_witness :
  exists out1 out2,
    fst (run ranged_provider 739923%Z 1%Z (Some "AAPL")
             (Some "2024-01-01") (Some "2024-06-30")) = Ok out1 /\
    fst (run ranged_provider 739923%Z 2%Z (Some "AAPL")
             (Some "2023-01-01") (Some "2023-03-01")) = Ok out2 /\
    length (table_data out1) = 2%nat /\
    length (table_data out2) = 3%nat /\
    latest_close_card out1 = latest_close_card out2 /\
    week_52_high_card out1 = week_52_high_card out2 /\
    week_52_low_card out1 = week_52_low_card out2.
Proof.
  edestruct (C6_metrics_independent_of_range ranged_provider 739923%Z 1%Z 2%Z "AAPL"
               (Some "2024-01-01") (Some "2024-06-30")
               (Some "2023-01-01") (Some "2023-03-01"))
    as [_ [_ [_ [Hc [Hh Hl]]]]].
  - discriminate.
  - unfold fetched. vm_compute. reflexivity.
  - unfold fetched. vm_compute. reflexivity.
  - vm_compute. reflexivity.
  - vm_compute. reflexivity.
  - eexists _, _.
    split; [vm_compute; reflexivity|]. split; [vm_compute; reflexivity|].
    split; [reflexivity|]. split; [reflexivity|].
    split; [exact Hc|]. split; [exact Hh|exact Hl].
Defined.

(* ====================================================================== *)
(** * Further properties of the callback *)

(* ---------------------------------------------------------------------- *)
(** ** Shape of a run *)

Lemma getitem_missing df key :
  ~ In key (get_level_values_0 (columns df)) -> getitem df key = Raise (KeyError key).
Proof.
  intros H. unfold getitem, items.
  rewrite (filter_key_notin key _ (data df) H). reflexivity.
Qed.

Lemma fetched_nonempty yf today t s e c m :
  fetched yf today t s e c m -> empty c = false /\ empty m = false.
Proof.
  intros F. destruct (fetched_inv _ _ _ _ _ _ _ F) as [dfc [dfm [Hc [Hm [-> [-> Hf]]]]]].
  rewrite (fetch_both_answer _ _ _ _ _ _ _ Hc Hm) in Hf.
  destruct (empty (flatten dfc)); [discriminate Hf|].
  destruct (empty (flatten dfm)); [discriminate Hf|]. split; reflexivity.
Qed.

Lemma run_fetched yf today n t s e c m :
  t <> "" ->
  fetched yf today t s e c m ->
  run yf today n (Some t) s e
  = (derive t c m, [chart_request t s e; metrics_request today t]).
Proof.
  intros Ht F. destruct (fetched_inv _ _ _ _ _ _ _ F) as [_ [_ [_ [_ [_ [_ Hf]]]]]].
  rewrite nonempty_ticker_runs by assumption. rewrite Hf. reflexivity.
Qed.

Lemma derive_parts t c m out :
  derive t c m = Ok out ->
  exists d tbl,
    serializable c = Ok d /\
    candlestick_figure t d = Ok (candlestick_chart out) /\
    price_figure t d = Ok (price_chart out) /\
    round_columns numeric_cols d = Ok tbl /\
    table_data out = to_dict_records tbl /\
    table_columns out = column_specs tbl.
Proof.
  unfold derive. intros H. rinv H. injection H as <-.
  eexists _, _. repeat split; eassumption.
Qed.

Lemma serializable_shape df d :
  serializable df = Ok d ->
  index d = RangeIndex (index_len (index df)) /\
  columns_len (columns d) = S (columns_len (columns df)).
Proof.
  unfold serializable. intros H. rinv H. injection H as <-.
  destruct (setitem_existing _ _ _ (Object (map strftime_ymd a1)) E0) as [Hix [Hcols _]].
  rewrite Hix, Hcols. clear - E.
  unfold reset_index in E.
  destruct (index df) as [name stamps|stop];
    [destruct name as [nm|]|];
    match type of E with
    | (if ?b then _ else _) = _ => destruct b; [discriminate E|]
    end;
    injection E as <-; cbn [index columns];
    (split; [reflexivity|]);
    destruct (columns df); unfold columns_len; reflexivity.
Qed.

Lemma round_columns_keeps cols : forall df tbl,
  round_columns cols df = Ok tbl ->
  index tbl = index df /\
  columns tbl = columns df /\
  forall key, ~ In key cols -> getitem tbl key = getitem df key.
Proof.
  induction cols as [|col cols IH]; intros df tbl H; cbn [round_columns] in H.
  - injection H as <-. repeat split.
  - rinv H.
    destruct (setitem_existing df col _ a0 E) as [Hix [Hcols _]].
    destruct (IH _ _ H) as [Tix [Tcols Tother]].
    split; [congruence|]. split; [congruence|].
    intros key Hnot. rewrite Tother by (intros Hin; apply Hnot; right; exact Hin).
    rewrite (getitem_setitem _ _ _ _ _ E).
    destruct (String.eqb_spec key col) as [->|_]; [|reflexivity].
    exfalso. apply Hnot. left. reflexivity.
Qed.

(** X1.  The calls of a run.  No call is made for an absent or empty ticker;
    otherwise the chart request comes first, and the metrics request
    follows exactly when the chart call returned a frame, whether or not
    that frame has rows.  An exception leaves the callback only after
    both calls were made. *)
Theorem call_log_discipline :
  forall yf today n ticker s e,
    snd (run yf today n ticker s e)
    = match ticker with
      | None => []
      | Some t =>
          if String.eqb t "" then []
          else match yf (chart_request t s e) with
               | Raise _ => [chart_request t s e]
               | Ok _ => [chart_request t s e; metrics_request today t]
               end
      end /\
    match fst (run yf today n ticker s e) with
    | Ok _ => True
    | Raise _ =>
        exists t, ticker = Some t /\
                  snd (run yf today n ticker s e)
                  = [chart_request t s e; metrics_request today t]
    end.
Proof.
  intros yf today n ticker s e.
  destruct ticker as [t|]; [|split; [reflexivity|exact I]].
  destruct (String.eqb_spec t "") as [->|Ht]; [split; [reflexivity|exact I]|].
  rewrite nonempty_ticker_runs by assumption.
  destruct (yf (chart_request t s e)) as [dfc|ex] eqn:Hc.
  - destruct (yf (metrics_request today t)) as [dfm|ex] eqn:Hm.
    + rewrite (fetch_both_answer _ _ _ _ _ _ _ Hc Hm).
      destruct (empty (flatten dfc) || empty (flatten dfm)); cbn [fst snd];
        (split; [reflexivity|]); [exact I|].
      destruct (derive t (flatten dfc) (flatten dfm)); [exact I|].
      exists t. split; reflexivity.
    + rewrite (fetch_metrics_raises _ _ _ _ _ _ _ Hc Hm). cbn [fst snd].
      split; [reflexivity|exact I].
  - rewrite (fetch_chart_raises _ _ _ _ _ _ Hc). cbn [fst snd].
    split; [reflexivity|exact I].
Qed.

(** X2.  The shape of the outputs of a successful run, whatever the frames
    hold: the table has one record per row of the chart frame and at least
    one, its column list has one entry more than the chart frame has
    columns (the index became a column), the candlestick figure has one
    trace and the price figure two. *)
Theorem table_shape_of_successful_run :
  forall yf today n t s e c m out,
    t <> "" ->
    fetched yf today t s e c m ->
    fst (run yf today n (Some t) s e) = Ok out ->
    length (table_data out) = rows c /\
    rows c <> 0%nat /\
    length (table_columns out) = S (columns_len (columns c)) /\
    length (fig_data (candlestick_chart out)) = 1%nat /\
    length (fig_data (price_chart out)) = 2%nat.
Proof.
  intros yf today n t s e c m out Ht F R.
  rewrite (run_fetched _ _ _ _ _ _ _ _ Ht F) in R. cbn [fst] in R.
  destruct (fetched_nonempty _ _ _ _ _ _ _ F) as [Hne _].
  destruct (derive_parts _ _ _ _ R) as [d [tbl [Hser [Hcf [Hpf [Hround [-> ->]]]]]]].
  destruct (serializable_shape _ _ Hser) as [Dix Dcols].
  destruct (round_columns_keeps _ _ _ Hround) as [Tix [Tcols _]].
  split; [|split; [|split; [|split]]].
  - rewrite to_dict_records_length, Tix, Dix. reflexivity.
  - unfold empty in Hne. apply orb_false_elim in Hne. destruct Hne as [Hne _].
    unfold rows. intros H0. rewrite H0 in Hne. discriminate Hne.
  - unfold column_specs. rewrite length_map. rewrite Tcols. exact Dcols.
  - unfold candlestick_figure in Hcf. rinv Hcf. injection Hcf as <-. reflexivity.
  - unfold price_figure in Hpf. rinv Hpf. injection Hpf as <-. reflexivity.
Qed.

Lemma table_shape_of_successful_run_witness :
  exists out,
    fst (run (provider_of (Ok with_adj_close) (Ok (two_days None)))
             739923%Z 1%Z (Some "AAPL") None None) = Ok out /\
    length (table_data out) = 2%nat /\
    length (table_columns out) = 7%nat.
Proof.
  eexists. split; [vm_compute; reflexivity|].
  edestruct (table_shape_of_successful_run
               (provider_of (Ok with_adj_close) (Ok (two_days None)))
               739923%Z 1%Z "AAPL" None None)
    as [Hrows [_ [Hcols _]]].
  - discriminate.
  - unfold fetched. vm_compute. reflexivity.
  - vm_compute. reflexivity.
  - split; [exact Hrows|exact Hcols].
Defined.

(** X3.  Figures and table are derived from the chart frame alone: two
    successful runs that fetched the same chart frame return the same two
    figures, table records and column list, whatever their metrics
    frames and whatever day it is. *)
Theorem charts_and_table_independent_of_metrics :
  forall yf1 yf2 today1 today2 n1 n2 t s e c m1 m2 out1 out2,
    t <> "" ->
    fetched yf1 today1 t s e c m1 ->
    fetched yf2 today2 t s e c m2 ->
    fst (run yf1 today1 n1 (Some t) s e) = Ok out1 ->
    fst (run yf2 today2 n2 (Some t) s e) = Ok out2 ->
    candlestick_chart out1 = candlestick_chart out2 /\
    price_chart out1 = price_chart out2 /\
    table_data out1 = table_data out2 /\
    table_columns out1 = table_columns out2.
Proof.
  intros yf1 yf2 today1 today2 n1 n2 t s e c m1 m2 out1 out2 Ht F1 F2 R1 R2.
  rewrite (run_fetched _ _ _ _ _ _ _ _ Ht F1) in R1.
  rewrite (run_fetched _ _ _ _ _ _ _ _ Ht F2) in R2. cbn [fst] in R1, R2.
  destruct (derive_parts _ _ _ _ R1) as [d [tbl [Hser [Hcf [Hpf [Hround [Hd Hcs]]]]]]].
  destruct (derive_parts _ _ _ _ R2) as [d' [tbl' [Hser' [Hcf' [Hpf' [Hround' [Hd' Hcs']]]]]]].
  rewrite Hser in Hser'. injection Hser' as <-.
  rewrite Hround in Hround'. injection Hround' as <-.
  rewrite Hcf in Hcf'. rewrite Hpf in Hpf'.
  injection Hcf' as Hcf'. injection Hpf' as Hpf'.
  repeat split; congruence.
Qed.

Lemma charts_and_table_independent_of_metrics_witness :
  exists out1 out2,
    fst (run (provider_of (Ok (two_days None)) (Ok three_days_last_close_missing))
             739923%Z 1%Z (Some "AAPL") None None) = Ok out1 /\
    fst (run (provider_of (Ok (two_days None)) (Ok (two_days None)))
             739000%Z 5%Z (Some "AAPL") None None) = Ok out2 /\
    latest_close_card out1 <> latest_close_card out2 /\
    candlestick_chart out1 = candlestick_chart out2 /\
    table_data out1 = table_data out2.
Proof.
  edestruct (charts_and_table_independent_of_metrics
               (provider_of (Ok (two_days None)) (Ok three_days_last_close_missing))
               (provider_of (Ok (two_days None)) (Ok (two_days None)))
               739923%Z 739000%Z 1%Z 5%Z "AAPL" None None)
    as [Hc [_ [Ht _]]].
  - discriminate.
  - unfold fetched. vm_compute. reflexivity.
  - unfold fetched. vm_compute. reflexivity.
  - vm_compute. reflexivity.
  - vm_compute. reflexivity.
  - eexists _, _.
    split; [vm_compute; reflexivity|]. split; [vm_compute; reflexivity|].
    split; [cbn; discriminate|]. split; [exact Hc|exact Ht].
Defined.

(* ---------------------------------------------------------------------- *)
(** ** The two figures *)

Lemma fetched_flat yf today t s e c m :
  fetched yf today t s e c m ->
  is_multiindex (columns c) = false /\ is_multiindex (columns m) = false.
Proof.
  intros F. destruct (fetched_inv _ _ _ _ _ _ _ F) as [dfc [dfm [_ [_ [-> [-> _]]]]]].
  split; [destruct dfc as [ix [l|tu] dat]|destruct dfm as [ix [l|tu] dat]]; reflexivity.
Qed.

Lemma chart_frame_spec c cbars :
  holds c cbars -> is_multiindex (columns c) = false ->
  exists d,
    serializable c = Ok d /\
    getitem d "Date" = Ok (Object (map (fun b => strftime_ymd (bar_date b)) cbars)) /\
    getitem d "Open" = Ok (Float64 (map bar_open cbars)) /\
    getitem d "High" = Ok (Float64 (map bar_high cbars)) /\
    getitem d "Low" = Ok (Float64 (map bar_low cbars)) /\
    getitem d "Close" = Ok (Float64 (map bar_close cbars)) /\
    getitem d "Volume" = Ok (Int64 (map bar_volume cbars)).
Proof.
  intros [Hix [Hdate [Ho [Hh [Hl [Hc Hv]]]]]] Hflat.
  rewrite (flatten_flat c Hflat) in Ho, Hh, Hl, Hc, Hv.
  destruct (serializable_spec c _ Hflat Hix Hdate) as [d [Hser [_ [_ [Hd Hoth]]]]].
  exists d. rewrite map_map in Hd.
  split; [exact Hser|]. split; [exact Hd|].
  repeat split; (rewrite Hoth; [assumption|discriminate]).
Qed.

(** X4.  The candlestick figure of a successful run on a well-formed chart
    frame: one trace whose x values are the bars' days as YYYY-MM-DD text
    and whose open, high, low and close are the bars' values as fetched
    (not rounded, missing values kept), under the upper-cased ticker as
    title, for a ticker of ASCII characters. *)
Theorem candlestick_shows_bars_as_fetched :
  forall yf today n t s e c m cbars out,
    t <> "" ->
    ascii_only t = true ->
    fetched yf today t s e c m ->
    holds c cbars ->
    fst (run yf today n (Some t) s e) = Ok out ->
    candlestick_chart out
    = {| fig_data :=
           [Candlestick (map (fun b => SStr (strftime_ymd (bar_date b))) cbars)
                        (map bar_open cbars) (map bar_high cbars)
                        (map bar_low cbars) (map bar_close cbars) "Candlestick"];
         layout := {| title := Some (upper t ++ " Candlestick Chart");
                      template := Some "plotly_dark";
                      xaxis_title := Some "Date";
                      yaxis_title := Some "Price ($)";
                      xaxis_rangeslider_visible := Some false;
                      axes_hidden := false;
                      yaxis2 := None |} |}.
Proof.
  intros yf today n t s e c m cbars out Ht _ F Hc R.
  rewrite (run_fetched _ _ _ _ _ _ _ _ Ht F) in R. cbn [fst] in R.
  destruct (fetched_flat _ _ _ _ _ _ _ F) as [Hflat _].
  destruct (derive_parts _ _ _ _ R) as [d [tbl [Hser [Hcf _]]]].
  destruct (chart_frame_spec _ _ Hc Hflat) as [d' [Hser' [Hd [Ho [Hh [Hl [Hcl _]]]]]]].
  rewrite Hser in Hser'. injection Hser' as <-.
  unfold candlestick_figure, to_list, float_list, rmap in Hcf.
  rewrite Hd, Ho, Hh, Hl, Hcl in Hcf. cbn [rbind astype_float values] in Hcf.
  rewrite map_map in Hcf. injection Hcf as <-. reflexivity.
Qed.

Lemma candlestick_shows_bars_as_fetched_witness :
  exists out open high low close,
    fst (run (provider_of (Ok (two_days (Some "aapl"))) (Ok (two_days None)))
             739923%Z 1%Z (Some "aapl") None None) = Ok out /\
    fig_title (candlestick_chart out) = Some "AAPL Candlestick Chart" /\
    fig_data (candlestick_chart out)
    = [Candlestick [SStr "2024-01-15"; SStr "2024-01-16"] open high low close
                   "Candlestick"] /\
    close = [price 101000; price 123456].
Proof.
  eexists _, _, _, _, _. split; [vm_compute; reflexivity|].
  rewrite (candlestick_shows_bars_as_fetched
             (provider_of (Ok (two_days (Some "aapl"))) (Ok (two_days None)))
             739923%Z 1%Z "aapl" None None
             (flatten (two_days (Some "aapl"))) (flatten (two_days None))
             sample_bars).
  - repeat split; reflexivity.
  - discriminate.
  - reflexivity.
  - reflexivity.
  - apply holds_flatten. exact (two_days_holds (Some "aapl")).
  - vm_compute. reflexivity.
Defined.

(** X5.  The price figure of a successful run on a well-formed chart frame: a
    line of the closes as fetched and, on the secondary axis y2, bars of
    the volumes converted to float64 (the nearest one, exact up to 2^53),
    both over the same days, for a ticker of ASCII characters and int64
    volumes. *)
Theorem price_figure_shows_close_and_volume :
  forall yf today n t s e c m cbars out,
    t <> "" ->
    ascii_only t = true ->
    fetched yf today t s e c m ->
    holds c cbars ->
    Forall (fun b => (- 2 ^ 63 <= bar_volume b < 2 ^ 63)%Z) cbars ->
    fst (run yf today n (Some t) s e) = Ok out ->
    price_chart out
    = {| fig_data :=
           [Scatter (map (fun b => SStr (strftime_ymd (bar_date b))) cbars)
                    (map bar_close cbars) "lines" "Close";
            Bar (map (fun b => SStr (strftime_ymd (bar_date b))) cbars)
                (map (fun b => float_of_int (bar_volume b)) cbars) "Volume" "y2"];
         layout := {| title := Some (upper t ++ " Close Price & Volume");
                      template := Some "plotly_dark";
                      xaxis_title := Some "Date";
                      yaxis_title := Some "Price ($)";
                      xaxis_rangeslider_visible := None;
                      axes_hidden := false;
                      yaxis2 := Some ("Volume", "y", "right") |} |}.
Proof.
  intros yf today n t s e c m cbars out Ht _ F Hc _ R.
  rewrite (run_fetched _ _ _ _ _ _ _ _ Ht F) in R. cbn [fst] in R.
  destruct (fetched_flat _ _ _ _ _ _ _ F) as [Hflat _].
  destruct (derive_parts _ _ _ _ R) as [d [tbl [Hser [_ [Hpf _]]]]].
  destruct (chart_frame_spec _ _ Hc Hflat) as [d' [Hser' [Hd [_ [_ [_ [Hcl Hv]]]]]]].
  rewrite Hser in Hser'. injection Hser' as <-.
  unfold price_figure, to_list, float_list, rmap in Hpf.
  rewrite Hd, Hcl, Hv in Hpf. cbn [rbind astype_float values] in Hpf.
  rewrite !map_map in Hpf. injection Hpf as <-. reflexivity.
Qed.

Lemma price_figure_shows_close_and_volume_witness :
  exists out x,
    fst (run (provider_of (Ok (two_days None)) (Ok (two_days None)))
             739923%Z 1%Z (Some "msft") None None) = Ok out /\
    fig_data (price_chart out)
    = [Scatter x [price 101000; price 123456] "lines" "Close";
       Bar x [Some (1000 # 1)%Q; Some (2000 # 1)%Q] "Volume" "y2"].
Proof.
  eexists _, _. split; [vm_compute; reflexivity|].
  rewrite (price_figure_shows_close_and_volume
             (provider_of (Ok (two_days None)) (Ok (two_days None)))
             739923%Z 1%Z "msft" None None
             (flatten (two_days None)) (flatten (two_days None))
             sample_bars).
  - vm_compute. reflexivity.
  - discriminate.
  - reflexivity.
  - reflexivity.
  - apply holds_flatten. exact (two_days_holds None).
  - repeat constructor; cbn; lia.
  - vm_compute. reflexivity.
Defined.

(** X6.  Only Open, High, Low and Close are rounded: a successful run on a
    frame indexed by Date copies every other column (Volume, an adjusted
    close, anything else the provider sends) into the table records cell
    by cell as fetched. *)
Theorem other_columns_pass_through_unrounded :
  forall yf today n t s e c m stamps out key col i,
    t <> "" ->
    fetched yf today t s e c m ->
    index c = DatetimeIndex (Some "Date") stamps ->
    ~ In "Date" (get_level_values_0 (columns c)) ->
    fst (run yf today n (Some t) s e) = Ok out ->
    ~ In key numeric_cols -> key <> "Date" ->
    getitem c key = Ok col ->
    (i < length stamps)%nat ->
    exists row,
      nth_error (table_data out) i = Some row /\
      record_get row key = Some (series_get col i).
Proof.
  intros yf today n t s e c m stamps out key col i Ht F Hix Hdate R Hnum Hkey Hget Hi.
  rewrite (run_fetched _ _ _ _ _ _ _ _ Ht F) in R. cbn [fst] in R.
  destruct (fetched_flat _ _ _ _ _ _ _ F) as [Hflat _].
  destruct (derive_parts _ _ _ _ R) as [d [tbl [Hser [_ [_ [Hround [-> _]]]]]]].
  destruct (serializable_spec c _ Hflat Hix Hdate) as [d' [Hser' [Dix [_ [_ Hoth]]]]].
  rewrite Hser in Hser'. injection Hser' as <-.
  destruct (round_columns_keeps _ _ _ Hround) as [Tix [_ Tother]].
  exists (record_at tbl i). split.
  - apply to_dict_records_nth. rewrite Tix, Dix. exact Hi.
  - apply record_at_get. rewrite (Tother _ Hnum), (Hoth _ Hkey). exact Hget.
Qed.

Lemma other_columns_pass_through_unrounded_witness :
  exists out row,
    fst (run (provider_of (Ok with_adj_close) (Ok (two_days None)))
             739923%Z 1%Z (Some "AAPL") None None) = Ok out /\
    nth_error (table_data out) 1 = Some row /\
    record_get row "Adj Close" = Some (SFloat (price 123309)).
Proof.
  eexists.
  edestruct other_columns_pass_through_unrounded
    with (yf := provider_of (Ok with_adj_close) (Ok (two_days None)))
         (today := 739923%Z) (n := 1%Z) (t := "AAPL")
         (s := @None string) (e := @None string)
         (c := with_adj_close) (stamps := [738900; 738901]%Z)
         (key := "Adj Close") (i := 1%nat)
    as [row [Hrow Hcell]].
  - discriminate.
  - reflexivity.
  - reflexivity.
  - cbn. intros H; repeat (destruct H as [H|H]; [discriminate H|]); exact H.
  - vm_compute. reflexivity.
  - cbn. intros H; repeat (destruct H as [H|H]; [discriminate H|]); exact H.
  - discriminate.
  - reflexivity.
  - cbn. lia.
  - exists row. split; [reflexivity|]. split; [exact Hrow|exact Hcell].
Defined.

(* ---------------------------------------------------------------------- *)
(** ** Frames the derivation cannot handle *)

Lemma existsb_key_in key labels :
  In key labels -> existsb (String.eqb key) labels = true.
Proof.
  intros H. apply existsb_exists. exists key. split; [exact H|apply String.eqb_refl].
Qed.

(** X7.  The index of the chart frame must be named Date.  With an index of
    another name (Datetime for intraday bars), or without a name, and no
    column called Date, the lookup of line 158 raises KeyError outside
    the [try] statement, and the run returns no outputs. *)
Theorem index_not_named_date_raises :
  forall yf today n t s e c m name stamps,
    t <> "" ->
    fetched yf today t s e c m ->
    index c = DatetimeIndex name stamps ->
    name <> Some "Date" ->
    ~ In "Date" (get_level_values_0 (columns c)) ->
    ~ In (match name with Some nm => nm | None => "index" end)
         (get_level_values_0 (columns c)) ->
    fst (run yf today n (Some t) s e) = Raise (KeyError "Date").
Proof.
  intros yf today n t s e c m name stamps Ht F Hix Hname Hdate Hlabel.
  rewrite (run_fetched _ _ _ _ _ _ _ _ Ht F). cbn [fst].
  destruct (fetched_flat _ _ _ _ _ _ _ F) as [Hflat _].
  destruct c as [ix [labels|tuples] dat]; [|discriminate Hflat].
  cbn [index columns get_level_values_0] in Hix, Hdate, Hlabel. subst ix.
  unfold derive, serializable, reset_index.
  cbn [index columns data get_level_values_0 index_len].
  assert (Hdefault : (if existsb (String.eqb "index") labels then "level_0" else "index")
                     = "index" \/ name <> None).
  { destruct name; [right; discriminate|left].
    rewrite (existsb_key_notin "index" labels Hlabel). reflexivity. }
  set (label := match name with
                | Some nm => nm
                | None => if existsb (String.eqb "index") labels then "level_0" else "index"
                end).
  assert (Hl : label = match name with Some nm => nm | None => "index" end).
  { unfold label. destruct name; [reflexivity|].
    destruct Hdefault as [H|H]; [exact H|contradiction]. }
  rewrite Hl. rewrite (existsb_key_notin _ labels Hlabel). cbn [rbind].
  unfold getitem, items. cbn [columns data get_level_values_0 combine filter fst].
  assert (Hne : String.eqb (match name with Some nm => nm | None => "index" end) "Date"
                = false).
  { apply String.eqb_neq. destruct name as [nm|]; [|discriminate].
    intros ->. apply Hname. reflexivity. }
  rewrite Hne. rewrite (filter_key_notin "Date" labels dat Hdate). reflexivity.
Qed.

Lemma index_not_named_date_raises_witness :
  fst (run (provider_of (Ok intraday_frame) (Ok (two_days None)))
           739923%Z 1%Z (Some "AAPL") None None)
  = Raise (KeyError "Date").
Proof.
  apply (index_not_named_date_raises
           (provider_of (Ok intraday_frame) (Ok (two_days None)))
           739923%Z 1%Z "AAPL" None None intraday_frame (flatten (two_days None))
           (Some "Datetime") [739900; 739900]%Z).
  - discriminate.
  - reflexivity.
  - reflexivity.
  - discriminate.
  - cbn. intros H; repeat (destruct H as [H|H]; [discriminate H|]); exact H.
  - cbn. intros H; repeat (destruct H as [H|H]; [discriminate H|]); exact H.
Defined.

(** X8.  A chart frame that already has a column named like its index cannot
    be reset: line 157 raises ValueError outside the [try] statement,
    and the run returns no outputs. *)
Theorem index_name_clash_raises :
  forall yf today n t s e c m nm stamps,
    t <> "" ->
    fetched yf today t s e c m ->
    index c = DatetimeIndex (Some nm) stamps ->
    In nm (get_level_values_0 (columns c)) ->
    fst (run yf today n (Some t) s e)
    = Raise (ValueError ("cannot insert " ++ nm ++ ", already exists")).
Proof.
  intros yf today n t s e c m nm stamps Ht F Hix Hin.
  rewrite (run_fetched _ _ _ _ _ _ _ _ Ht F). cbn [fst].
  unfold derive, serializable, reset_index. rewrite Hix.
  rewrite (existsb_key_in _ _ Hin). reflexivity.
Qed.

Lemma index_name_clash_raises_witness :
  fst (run (provider_of (Ok date_column_frame) (Ok (two_days None)))
           739923%Z 1%Z (Some "AAPL") None None)
  = Raise (ValueError "cannot insert Date, already exists").
Proof.
  apply (index_name_clash_raises
           (provider_of (Ok date_column_frame) (Ok (two_days None)))
           739923%Z 1%Z "AAPL" None None date_column_frame (flatten (two_days None))
           "Date" [739900]%Z).
  - discriminate.
  - reflexivity.
  - reflexivity.
  - left. reflexivity.
Defined.

(** X9.  The figures read Open, High, Low, Close and Volume in this order.
    On a chart frame indexed by Date, the first of them that is not a
    column raises KeyError with its name outside the [try] statement
    (the ones before it being numeric columns), and the run returns no
    outputs, whatever the metrics frame holds. *)
Theorem first_missing_chart_field_raises :
  forall yf today n t s e c m stamps before key after,
    t <> "" ->
    fetched yf today t s e c m ->
    index c = DatetimeIndex (Some "Date") stamps ->
    ~ In "Date" (get_level_values_0 (columns c)) ->
    chart_fields = (before ++ key :: after)%list ->
    Forall (fun k => exists col xs, getitem c k = Ok col /\ astype_float col = Ok xs)
           before ->
    ~ In key (get_level_values_0 (columns c)) ->
    fst (run yf today n (Some t) s e) = Raise (KeyError key).
Proof.
  intros yf today n t s e c m stamps before key after Ht F Hix Hdate Hsplit Hbefore Hkey.
  rewrite (run_fetched _ _ _ _ _ _ _ _ Ht F). cbn [fst].
  destruct (fetched_flat _ _ _ _ _ _ _ F) as [Hflat _].
  destruct (serializable_spec c _ Hflat Hix Hdate) as [d [Hser [_ [_ [Hd Hoth]]]]].
  assert (Hfields : forall k, In k chart_fields -> k <> "Date").
  { intros k Hk. unfold chart_fields in Hk. cbn [In] in Hk.
    repeat (destruct Hk as [<-|Hk]; [discriminate|]). contradiction. }
  assert (Hbad : float_list d key = Raise (KeyError key)).
  { unfold float_list. rewrite Hoth.
    - rewrite (getitem_missing _ _ Hkey). reflexivity.
    - apply Hfields. rewrite Hsplit. apply in_or_app. right. left. reflexivity. }
  assert (Hgood : forall k, In k before -> exists xs, float_list d k = Ok xs).
  { intros k Hk. rewrite Forall_forall in Hbefore.
    destruct (Hbefore k Hk) as [col [xs [Hget Hcast]]]. exists xs.
    unfold float_list. rewrite Hoth.
    - rewrite Hget. exact Hcast.
    - apply Hfields. rewrite Hsplit. apply in_or_app. left. exact Hk. }
  assert (Hx : to_list d "Date" = Ok (map SStr (map strftime_ymd stamps))).
  { unfold to_list, rmap. rewrite Hd. reflexivity. }
  unfold derive. rewrite Hser. cbn [rbind].
  unfold candlestick_figure, price_figure. rewrite Hx. cbn [rbind].
  unfold chart_fields in Hsplit.
  destruct before as [|b1 before]; cbn [app] in Hsplit;
    injection Hsplit as <- Hsplit; [rewrite Hbad; reflexivity|].
  destruct (Hgood "Open" (or_introl eq_refl)) as [os ->]. cbn [rbind].
  destruct before as [|b2 before]; cbn [app] in Hsplit;
    injection Hsplit as <- Hsplit; [rewrite Hbad; reflexivity|].
  destruct (Hgood "High" (or_intror (or_introl eq_refl))) as [hs ->]. cbn [rbind].
  destruct before as [|b3 before]; cbn [app] in Hsplit;
    injection Hsplit as <- Hsplit; [rewrite Hbad; reflexivity|].
  destruct (Hgood "Low" (or_intror (or_intror (or_introl eq_refl)))) as [ls ->].
  cbn [rbind].
  destruct before as [|b4 before]; cbn [app] in Hsplit;
    injection Hsplit as <- Hsplit; [rewrite Hbad; reflexivity|].
  destruct (Hgood "Close" (or_intror (or_intror (or_intror (or_introl eq_refl)))))
    as [cs ->].
  cbn [rbind].
  destruct before as [|b5 before]; cbn [app] in Hsplit;
    injection Hsplit as <- Hsplit; [rewrite Hbad; reflexivity|].
  destruct before; discriminate Hsplit.
Qed.

Lemma first_missing_chart_field_raises_witness :
  fst (run (provider_of (Ok without_volume) (Ok closes_all_missing))
           739923%Z 1%Z (Some "AAPL") None None)
  = Raise (KeyError "Volume").
Proof.
  apply (first_missing_chart_field_raises
           (provider_of (Ok without_volume) (Ok closes_all_missing))
           739923%Z 1%Z "AAPL" None None without_volume (flatten closes_all_missing)
           [739900]%Z ["Open"; "High"; "Low"; "Close"] "Volume" []).
  - discriminate.
  - reflexivity.
  - reflexivity.
  - cbn. intros H; repeat (destruct H as [H|H]; [discriminate H|]); exact H.
  - reflexivity.
  - repeat constructor; eexists _, _; split; reflexivity.
  - cbn. intros H; repeat (destruct H as [H|H]; [discriminate H|]); exact H.
Defined.

Section Repeated.

Variable key : string.

Local Abbreviation picks := (fun p : string * Series => String.eqb (fst p) key).

Lemma filter_key_in labels cols :
  In key labels -> length cols = length labels ->
  filter picks (combine labels cols) <> [].
Proof.
  revert cols. induction labels as [|l labels IH]; intros cols Hin Hlen; [contradiction|].
  destruct cols as [|c cols]; [discriminate Hlen|].
  cbn [combine filter fst]. destruct (String.eqb_spec l key) as [_|Hne]; [discriminate|].
  apply IH.
  - destruct Hin as [Heq|Hin]; [contradiction|exact Hin].
  - cbn [length] in Hlen. lia.
Qed.

Lemma filter_repeated l1 l2 l3 : forall cols,
  length cols = length (l1 ++ key :: l2 ++ key :: l3) ->
  exists p1 p2 rest,
    filter picks (combine (l1 ++ key :: l2 ++ key :: l3) cols) = p1 :: p2 :: rest.
Proof.
  induction l1 as [|a l1 IH]; intros cols Hlen.
  - destruct cols as [|c cols]; [discriminate Hlen|].
    cbn [app combine filter fst]. rewrite String.eqb_refl.
    assert (Hrest : filter picks (combine (l2 ++ key :: l3) cols) <> []).
    { apply filter_key_in.
      - apply in_or_app. right. left. reflexivity.
      - cbn [app length] in Hlen. lia. }
    destruct (filter picks (combine (l2 ++ key :: l3) cols)) as [|p2 rest];
      [contradiction|].
    exists (key, c), p2, rest. reflexivity.
  - destruct cols as [|c cols]; [discriminate Hlen|].
    cbn [app combine filter fst].
    destruct (IH cols) as [p1 [p2 [rest Hf]]]; [cbn [app length] in Hlen; lia|].
    rewrite Hf. destruct (String.eqb a key).
    + exists (a, c), p1, (p2 :: rest). reflexivity.
    + exists p1, p2, rest. reflexivity.
Qed.

End Repeated.

(** X10.  A chart frame in which the field Open occurs twice (after flattening,
    the answer to a request for two symbols) cannot be charted: the
    selection of line 164 is a DataFrame, the call on it fails outside the
    [try] statement, and the run returns no outputs. *)
Theorem repeated_open_field_raises :
  forall yf today n t s e c m stamps l1 l2 l3,
    t <> "" ->
    fetched yf today t s e c m ->
    index c = DatetimeIndex (Some "Date") stamps ->
    ~ In "Date" (get_level_values_0 (columns c)) ->
    get_level_values_0 (columns c) = (l1 ++ "Open" :: l2 ++ "Open" :: l3)%list ->
    length (data c) = length (get_level_values_0 (columns c)) ->
    fst (run yf today n (Some t) s e) = Raise (NotASeries "Open").
Proof.
  intros yf today n t s e c m stamps l1 l2 l3 Ht F Hix Hdate Hlabels Hlen.
  rewrite (run_fetched _ _ _ _ _ _ _ _ Ht F). cbn [fst].
  destruct (fetched_flat _ _ _ _ _ _ _ F) as [Hflat _].
  destruct (serializable_spec c _ Hflat Hix Hdate) as [d [Hser [_ [_ [Hd Hoth]]]]].
  assert (Hopen : getitem d "Open" = Raise (NotASeries "Open")).
  { rewrite Hoth by discriminate. unfold getitem, items. rewrite Hlabels.
    rewrite Hlabels in Hlen.
    destruct (filter_repeated "Open" l1 l2 l3 (data c) Hlen) as [[k1 c1] [p2 [rest ->]]].
    reflexivity. }
  unfold derive. rewrite Hser. cbn [rbind].
  unfold candlestick_figure, to_list, float_list, rmap.
  rewrite Hd, Hopen. reflexivity.
Qed.

Lemma repeated_open_field_raises_witness :
  fst (run (provider_of (Ok two_tickers) (Ok two_tickers))
           739923%Z 1%Z (Some "AAPL MSFT") None None)
  = Raise (NotASeries "Open").
Proof.
  apply (repeated_open_field_raises
           (provider_of (Ok two_tickers) (Ok two_tickers))
           739923%Z 1%Z "AAPL MSFT" None None (flatten two_tickers) (flatten two_tickers)
           [739900]%Z ["Close"; "Close"; "High"; "High"; "Low"; "Low"] []
           ["Volume"; "Volume"]).
  - discriminate.
  - reflexivity.
  - reflexivity.
  - cbn. intros H; repeat (destruct H as [H|H]; [discriminate H|]); exact H.
  - reflexivity.
  - reflexivity.
Defined.

(* ---------------------------------------------------------------------- *)
(** ** The no-data check and the extremes *)

Lemma flatten_columns_len df :
  columns_len (columns (flatten df)) = columns_len (columns df).
Proof. destruct df as [ix [labels|tuples] dat]; reflexivity. Qed.

(** X11.  The no-data check also fires on a frame that has rows but no
    columns: for a non-empty ticker, when both fetches answer and either
    frame has no column, the run returns the ERROR outputs with the
    no-data message for the ticker. *)
Theorem no_columns_is_no_data :
  forall yf today n t s e dfc dfm,
    t <> "" ->
    yf (chart_request t s e) = Ok dfc ->
    yf (metrics_request today t) = Ok dfm ->
    columns_len (columns dfc) = 0%nat \/ columns_len (columns dfm) = 0%nat ->
    run yf today n (Some t) s e
    = (Ok (error_outputs (ValueError ("No data found for ticker '" ++ t ++ "'"))),
       [chart_request t s e; metrics_request today t]).
Proof.
  intros yf today n t s e dfc dfm Ht Hc Hm Hcols.
  rewrite nonempty_ticker_runs by assumption.
  rewrite (fetch_both_answer _ _ _ _ _ _ _ Hc Hm).
  assert (Hempty : empty (flatten dfc) || empty (flatten dfm) = true).
  { unfold empty. rewrite !flatten_columns_len.
    destruct Hcols as [H|H]; rewrite H; cbn [Nat.eqb];
      rewrite ?orb_true_r; reflexivity. }
  rewrite Hempty. reflexivity.
Qed.

Lemma no_columns_is_no_data_witness :
  rows no_columns = 2%nat /\
  fst (run (provider_of (Ok (two_days None)) (Ok no_columns))
           739923%Z 1%Z (Some "AAPL") None None)
  = Ok (error_outputs (ValueError "No data found for ticker 'AAPL'")).
Proof.
  split; [reflexivity|].
  rewrite (no_columns_is_no_data
             (provider_of (Ok (two_days None)) (Ok no_columns))
             739923%Z 1%Z "AAPL" None None (two_days None) no_columns).
  - reflexivity.
  - discriminate.
  - reflexivity.
  - reflexivity.
  - right. reflexivity.
Defined.

(** X12.  Unlike the latest close, the 52-week extremes never raise on float
    columns: each is a float, and it is NaN exactly when every value of
    its column is missing (in particular on a column without rows). *)
Theorem extremes_never_raise :
  forall dfm highs lows,
    getitem dfm "High" = Ok (Float64 highs) ->
    getitem dfm "Low" = Ok (Float64 lows) ->
    exists hi lo,
      week_52_high dfm = Ok hi /\
      week_52_low dfm = Ok lo /\
      (hi = NaN <-> Forall (fun x => x = NaN) highs) /\
      (lo = NaN <-> Forall (fun x => x = NaN) lows).
Proof.
  intros dfm highs lows Hh Hl.
  exists (nanmax highs), (nanmin lows).
  split; [unfold week_52_high; rewrite Hh; reflexivity|].
  split; [unfold week_52_low; rewrite Hl; reflexivity|].
  pose proof (nanmax_is_max highs) as Hmax.
  pose proof (nanmin_is_min lows) as Hmin.
  split; split.
  - intros Hnan. rewrite Hnan in Hmax. apply Forall_forall. exact Hmax.
  - intros Hall. destruct (nanmax highs) as [v|]; [|reflexivity].
    destruct Hmax as [Hin _]. rewrite Forall_forall in Hall.
    discriminate (Hall _ Hin).
  - intros Hnan. rewrite Hnan in Hmin. apply Forall_forall. exact Hmin.
  - intros Hall. destruct (nanmin lows) as [v|]; [|reflexivity].
    destruct Hmin as [Hin _]. rewrite Forall_forall in Hall.
    discriminate (Hall _ Hin).
Qed.

Lemma extremes_never_raise_witness :
  exists lo,
    week_52_high highs_all_missing = Ok NaN /\
    week_52_low highs_all_missing = Ok (Some lo).
Proof.
  destruct (extremes_never_raise highs_all_missing [NaN; NaN] [price 99000; NaN])
    as [hi [lo [Hh [Hl [[_ Hhi] _]]]]].
  - reflexivity.
  - reflexivity.
  - rewrite (Hhi ltac:(repeat constructor)) in Hh.
    exists (99000 # 1000)%Q. split; [exact Hh|reflexivity].
Defined.

(* ---------------------------------------------------------------------- *)
(** ** Rounding to binary64 keeps the order *)

Lemma rint_Z n : rint (inject_Z n) = n.
Proof.
  unfold rint. rewrite Qfloor_Z.
  assert (H0 : (inject_Z n - inject_Z n == 0)%Q) by ring.
  assert (H : (inject_Z n - inject_Z n ?= 1 # 2)%Q = Lt)
    by (rewrite H0; reflexivity).
  rewrite H. reflexivity.
Qed.

Lemma rint_monotone q q' : (q <= q')%Q -> (rint q <= rint q')%Z.
Proof.
  intros H.
  pose proof (Qfloor_resp_le _ _ H) as Hf.
  pose proof (Qfloor_le q) as L1. pose proof (Qlt_floor q) as U1.
  pose proof (Qfloor_le q') as L2. pose proof (Qlt_floor q') as U2.
  rewrite inject_Z_plus in U1, U2. change (inject_Z 1) with 1%Q in U1, U2.
  unfold rint.
  set (f := Qfloor q) in *. set (f' := Qfloor q') in *. clearbody f f'.
  destruct (q - inject_Z f ?= 1 # 2)%Q eqn:C1;
    destruct (q' - inject_Z f' ?= 1 # 2)%Q eqn:C2;
    repeat match goal with
           | C : (_ ?= _)%Q = Eq |- _ => apply Qeq_alt in C
           | C : (_ ?= _)%Q = Lt |- _ => apply Qlt_alt in C
           | C : (_ ?= _)%Q = Gt |- _ => apply Qgt_alt in C
           end;
    (destruct (Z.eq_dec f f') as [Heq|Hne];
     [subst f'; destruct (Z.even f); try lia; exfalso; lra
     |destruct (Z.even f); destruct (Z.even f'); lia]).
Qed.

Lemma pow2_pos e : (0 < Qpower 2 e)%Q.
Proof. apply Qpower_0_lt. reflexivity. Qed.

Lemma pow2_mono e1 e2 : (e1 <= e2)%Z -> (Qpower 2 e1 <= Qpower 2 e2)%Q.
Proof. intros H. apply Qpower_le_compat_l; [exact H|discriminate]. Qed.

Lemma pow2_succ e : (Qpower 2 (e + 1) == 2 * Qpower 2 e)%Q.
Proof. rewrite Qpower_plus by discriminate. change (Qpower 2 1) with 2%Q. ring. Qed.

Lemma pow2_Z k : (0 <= k)%Z -> (Qpower 2 k == inject_Z (2 ^ k))%Q.
Proof. intros H. rewrite Zpower_Qpower by exact H. reflexivity. Qed.

Lemma ilog2_spec q :
  (0 < q)%Q -> (Qpower 2 (ilog2 q) <= q)%Q /\ (q < Qpower 2 (ilog2 q + 1))%Q.
Proof.
  intros Hq. destruct q as [n d].
  assert (Hn : (0 < n)%Z) by (unfold Qlt in Hq; cbn in Hq; lia).
  pose proof (Z.log2_spec n Hn) as [Ln Un].
  pose proof (Z.log2_spec (Zpos d) (Pos2Z.is_pos d)) as [Ld Ud].
  pose proof (Z.log2_nonneg n) as Nn. pose proof (Z.log2_nonneg (Zpos d)) as Nd.
  unfold ilog2. cbn [Qnum Qden].
  set (ln := Z.log2 n) in *. set (ld := Z.log2 (Zpos d)) in *.
  assert (Hk : (Qpower 2 (ln - ld) == inject_Z (2 ^ ln) / inject_Z (2 ^ ld))%Q).
  { unfold Z.sub. rewrite Qpower_plus by discriminate. rewrite Qpower_opp.
    rewrite !pow2_Z by lia. reflexivity. }
  assert (Hq' : (n # d == inject_Z n / inject_Z (Zpos d))%Q) by apply Qmake_Qdiv.
  set (A := inject_Z (2 ^ ln)) in *. set (B := inject_Z (2 ^ ld)) in *.
  set (N := inject_Z n) in *. set (D := inject_Z (Zpos d)) in *.
  assert (HA : (0 < A)%Q) by (unfold A; rewrite <- pow2_Z by lia; apply pow2_pos).
  assert (HB : (0 < B)%Q) by (unfold B; rewrite <- pow2_Z by lia; apply pow2_pos).
  assert (HD : (0 < D)%Q) by (unfold D; change 0%Q with (inject_Z 0); rewrite <- Zlt_Qlt; lia).
  assert (HAN : (A <= N)%Q) by (unfold A, N; rewrite <- Zle_Qle; exact Ln).
  assert (HNA : (N < 2 * A)%Q).
  { unfold A, N. change 2%Q with (inject_Z 2). rewrite <- inject_Z_mult, <- Zlt_Qlt.
    unfold Z.succ in Un. rewrite Z.pow_add_r in Un by lia. lia. }
  assert (HBD : (B <= D)%Q) by (unfold B, D; rewrite <- Zle_Qle; exact Ld).
  assert (HDB : (D < 2 * B)%Q).
  { unfold B, D. change 2%Q with (inject_Z 2). rewrite <- inject_Z_mult, <- Zlt_Qlt.
    unfold Z.succ in Ud. rewrite Z.pow_add_r in Ud by lia. lia. }
  assert (Hup : (N / D < 2 * (A / B))%Q).
  { apply Qlt_shift_div_r; [exact HD|].
    assert (E : (2 * (A / B) * D == (2 * A * D) / B)%Q) by (field; lra).
    rewrite E. apply Qlt_shift_div_l; [exact HB|]. nra. }
  assert (Hlow : (A / B <= 2 * (N / D))%Q).
  { apply Qle_shift_div_r; [exact HB|].
    assert (E : (2 * (N / D) * B == (2 * N * B) / D)%Q) by (field; lra).
    rewrite E. apply Qle_shift_div_l; [exact HD|]. nra. }
  destruct (Qle_bool (Qpower 2 (ln - ld)) (n # d)) eqn:Ht.
  - apply Qle_bool_iff in Ht. split; [exact Ht|].
    rewrite pow2_succ, Hk, Hq'. exact Hup.
  - assert (Hlt : (n # d < Qpower 2 (ln - ld))%Q).
    { apply Qnot_le_lt. intros H. apply Qle_bool_iff in H. congruence. }
    split.
    + assert (E : (Qpower 2 (ln - ld) == 2 * Qpower 2 (ln - ld - 1))%Q).
      { rewrite <- pow2_succ. replace (ln - ld - 1 + 1)%Z with (ln - ld)%Z by lia. reflexivity. }
      rewrite Hk in E. rewrite Hq'. rewrite E in Hlow. lra.
    + replace (ln - ld - 1 + 1)%Z with (ln - ld)%Z by lia. exact Hlt.
Qed.

Lemma ilog2_mono a b : (0 < a)%Q -> (a <= b)%Q -> (ilog2 a <= ilog2 b)%Z.
Proof.
  intros Ha Hab.
  destruct (ilog2_spec a Ha) as [La _].
  destruct (ilog2_spec b (Qlt_le_trans _ _ _ Ha Hab)) as [_ Ub].
  assert (H : (Qpower 2 (ilog2 a) < Qpower 2 (ilog2 b + 1))%Q) by lra.
  apply Qpower_lt_compat_l_inv in H; [lia|reflexivity].
Qed.

Lemma binary64_zero q : (q == 0)%Q -> (binary64 q == 0)%Q.
Proof.
  intros H. unfold binary64. apply Qeq_bool_iff in H. rewrite H. reflexivity.
Qed.

Lemma binary64_pos q : (0 < q)%Q -> (binary64 q == round_mag (Qabs q))%Q.
Proof.
  intros H. unfold binary64.
  destruct (Qeq_bool q 0) eqn:E0; [apply Qeq_bool_iff in E0; lra|].
  assert (Hle : Qle_bool 0 q = true) by (apply Qle_bool_iff; lra).
  rewrite Hle, Qred_correct. unfold round_mag, exponent. ring.
Qed.

Lemma binary64_neg q : (q < 0)%Q -> (binary64 q == - round_mag (Qabs q))%Q.
Proof.
  intros H. unfold binary64.
  destruct (Qeq_bool q 0) eqn:E0; [apply Qeq_bool_iff in E0; lra|].
  destruct (Qle_bool 0 q) eqn:Hle; [apply Qle_bool_iff in Hle; lra|].
  rewrite Qred_correct. unfold round_mag, exponent. ring.
Qed.

Lemma rint_nonneg q : (0 <= q)%Q -> (0 <= rint q)%Z.
Proof.
  intros H. apply rint_monotone in H. change 0%Q with (inject_Z 0) in H.
  rewrite rint_Z in H. exact H.
Qed.

Lemma round_mag_nonneg a : (0 < a)%Q -> (0 <= round_mag a)%Q.
Proof.
  intros Ha. unfold round_mag. pose proof (pow2_pos (exponent a)) as Hp.
  apply Qmult_le_0_compat; [|lra].
  change 0%Q with (inject_Z 0). rewrite <- Zle_Qle. apply rint_nonneg.
  apply Qle_shift_div_l; [exact Hp|]. lra.
Qed.

Lemma round_mag_upper a :
  (0 < a)%Q -> (round_mag a <= Qpower 2 (exponent a + 53))%Q.
Proof.
  intros Ha. unfold round_mag. set (e := exponent a).
  pose proof (pow2_pos e) as Hp.
  destruct (ilog2_spec a Ha) as [_ Hup].
  assert (He : (ilog2 a + 1 <= e + 53)%Z) by (unfold e, exponent; lia).
  pose proof (pow2_mono _ _ He) as Hm.
  assert (Hsplit : (Qpower 2 (e + 53) == Qpower 2 53 * Qpower 2 e)%Q).
  { rewrite Qpower_plus by discriminate. ring. }
  assert (Hs : (a / Qpower 2 e <= Qpower 2 53)%Q).
  { apply Qle_shift_div_r; [exact Hp|]. rewrite <- Hsplit. lra. }
  rewrite (pow2_Z 53) in Hs by lia.
  apply rint_monotone in Hs. rewrite rint_Z in Hs. rewrite Zle_Qle in Hs.
  rewrite <- (pow2_Z 53) in Hs by lia.
  rewrite Hsplit. apply Qmult_le_compat_r; [exact Hs|lra].
Qed.

Lemma round_mag_lower a :
  (0 < a)%Q -> exponent a = (ilog2 a - 52)%Z ->
  (Qpower 2 (exponent a + 52) <= round_mag a)%Q.
Proof.
  intros Ha He. unfold round_mag. set (e := exponent a) in *.
  pose proof (pow2_pos e) as Hp.
  destruct (ilog2_spec a Ha) as [Hlo _].
  assert (Hk : ilog2 a = (e + 52)%Z) by lia. rewrite Hk in Hlo.
  assert (Hsplit : (Qpower 2 (e + 52) == Qpower 2 52 * Qpower 2 e)%Q).
  { rewrite Qpower_plus by discriminate. ring. }
  assert (Hs : (Qpower 2 52 <= a / Qpower 2 e)%Q).
  { apply Qle_shift_div_l; [exact Hp|]. rewrite <- Hsplit. exact Hlo. }
  rewrite (pow2_Z 52) in Hs by lia.
  apply rint_monotone in Hs. rewrite rint_Z in Hs. rewrite Zle_Qle in Hs.
  rewrite <- (pow2_Z 52) in Hs by lia.
  rewrite Hsplit. apply Qmult_le_compat_r; [exact Hs|lra].
Qed.

Lemma round_mag_monotone a b :
  (0 < a)%Q -> (a <= b)%Q -> (round_mag a <= round_mag b)%Q.
Proof.
  intros Ha Hab.
  assert (Hb : (0 < b)%Q) by lra.
  pose proof (ilog2_mono a b Ha Hab) as Hk.
  destruct (Z.eq_dec (exponent a) (exponent b)) as [Heq|Hne].
  - unfold round_mag. rewrite Heq. set (e := exponent b).
    pose proof (pow2_pos e) as Hp.
    apply Qmult_le_compat_r; [|lra].
    rewrite <- Zle_Qle. apply rint_monotone.
    apply Qle_shift_div_l; [exact Hp|].
    assert (E : (a / Qpower 2 e * Qpower 2 e == a)%Q) by (field; lra).
    rewrite E. exact Hab.
  - assert (Hlt : (exponent a + 53 <= exponent b + 52)%Z)
      by (unfold exponent in *; lia).
    assert (Hnormal : exponent b = (ilog2 b - 52)%Z)
      by (unfold exponent in *; lia).
    pose proof (round_mag_upper a Ha) as Hu.
    pose proof (round_mag_lower b Hb Hnormal) as Hl.
    pose proof (pow2_mono _ _ Hlt) as Hm. lra.
Qed.

Lemma binary64_monotone q q' : (q <= q')%Q -> (binary64 q <= binary64 q')%Q.
Proof.
  intros H.
  destruct (Q_dec q 0) as [[Hq|Hq]|Hq]; destruct (Q_dec q' 0) as [[Hq'|Hq']|Hq'];
    try (exfalso; lra).
  - rewrite (binary64_neg q Hq), (binary64_neg q' Hq').
    assert (Ha : (0 < Qabs q')%Q) by (rewrite Qabs_neg by lra; lra).
    assert (Hab : (Qabs q' <= Qabs q)%Q) by (rewrite !Qabs_neg by lra; lra).
    pose proof (round_mag_monotone _ _ Ha Hab). lra.
  - rewrite (binary64_neg q Hq), (binary64_pos q' Hq').
    assert (Ha : (0 < Qabs q)%Q) by (rewrite Qabs_neg by lra; lra).
    assert (Ha' : (0 < Qabs q')%Q) by (rewrite Qabs_pos by lra; lra).
    pose proof (round_mag_nonneg _ Ha). pose proof (round_mag_nonneg _ Ha'). lra.
  - rewrite (binary64_neg q Hq), (binary64_zero q' Hq').
    assert (Ha : (0 < Qabs q)%Q) by (rewrite Qabs_neg by lra; lra).
    pose proof (round_mag_nonneg _ Ha). lra.
  - rewrite (binary64_pos q Hq), (binary64_pos q' Hq').
    assert (Ha : (0 < Qabs q)%Q) by (rewrite Qabs_pos by lra; lra).
    assert (Hab : (Qabs q <= Qabs q')%Q) by (rewrite !Qabs_pos by lra; lra).
    exact (round_mag_monotone _ _ Ha Hab).
  - rewrite (binary64_zero q Hq), (binary64_pos q' Hq').
    assert (Ha' : (0 < Qabs q')%Q) by (rewrite Qabs_pos by lra; lra).
    exact (round_mag_nonneg _ Ha').
  - rewrite (binary64_zero q Hq), (binary64_zero q' Hq'). lra.
Qed.

(** X14.  Rounding keeps the order of prices: of two finite non-negative
    float64 prices, the one that is not above the other is not above it
    after [round(2)] either. *)
Theorem rounding_keeps_order :
  forall x y,
    float64_price (Some x) = true ->
    float64_price (Some y) = true ->
    (x <= y)%Q ->
    (np_round 2 x <= np_round 2 y)%Q.
Proof.
  intros x y _ _ H. unfold np_round.
  replace (binary64 (pow10 2)) with 100%Q by (vm_compute; reflexivity).
  apply binary64_monotone.
  apply Qmult_le_compat_r; [|discriminate].
  rewrite <- Zle_Qle. apply rint_monotone. apply binary64_monotone.
  apply Qmult_le_compat_r; [exact H|discriminate].
Qed.

Lemma rounding_keeps_order_witness :
  (np_round 2 (binary64 (2674 # 1000)) <= np_round 2 (binary64 (2675 # 1000)))%Q.
Proof.
  apply (rounding_keeps_order (binary64 (2674 # 1000)) (binary64 (2675 # 1000))).
  - vm_compute. reflexivity.
  - vm_compute. reflexivity.
  - vm_compute. discriminate.
Defined.

(* ---------------------------------------------------------------------- *)
(** ** Outcomes of a run *)

(** X15.  Whenever the chart frame is well formed and every Close of the
    metrics frame is missing, the run ends in the IndexError of line 206,
    after both figures were built: no outputs are returned. *)
Theorem all_closes_missing_always_raises :
  forall yf today n t s e c m cbars closes,
    t <> "" ->
    fetched yf today t s e c m ->
    holds c cbars ->
    getitem m "Close" = Ok (Float64 closes) ->
    Forall (fun x => x = NaN) closes ->
    fst (run yf today n (Some t) s e)
    = Raise (IndexError "single positional indexer is out-of-bounds").
Proof.
  intros yf today n t s e c m cbars closes Ht F Hc Hget Hall.
  rewrite (run_fetched _ _ _ _ _ _ _ _ Ht F). cbn [fst].
  destruct (fetched_flat _ _ _ _ _ _ _ F) as [Hflat _].
  destruct (chart_frame_spec _ _ Hc Hflat) as [d [Hser [Hd [Ho [Hh [Hl [Hcl Hv]]]]]]].
  unfold derive. rewrite Hser. cbn [rbind].
  unfold candlestick_figure, price_figure, to_list, float_list, rmap.
  rewrite Hd, Ho, Hh, Hl, Hcl, Hv. cbn [rbind astype_float].
  rewrite (latest_close_all_missing _ _ Hget Hall). reflexivity.
Qed.

Lemma all_closes_missing_always_raises_witness :
  fst (run (provider_of (Ok (two_days (Some "AAPL"))) (Ok closes_all_missing))
           739923%Z 1%Z (Some "AAPL") None None)
  = Raise (IndexError "single positional indexer is out-of-bounds").
Proof.
  apply (all_closes_missing_always_raises
           (provider_of (Ok (two_days (Some "AAPL"))) (Ok closes_all_missing))
           739923%Z 1%Z "AAPL" None None
           (flatten (two_days (Some "AAPL"))) (flatten closes_all_missing)
           sample_bars [NaN; NaN]).
  - discriminate.
  - reflexivity.
  - apply holds_flatten. exact (two_days_holds (Some "AAPL")).
  - reflexivity.
  - repeat constructor.
Defined.

(** X16.  The outputs tell how the run went.  Returned outputs have an empty
    table exactly when they are the EMPTY outputs or ERROR outputs; the
    outputs of a derivation always have table records and a candlestick
    trace, which the other two never have. *)
Theorem empty_table_iff_not_derived :
  forall yf today n ticker s e out,
    fst (run yf today n ticker s e) = Ok out ->
    (table_data out = [] <->
     out = empty_outputs \/ exists ex, out = error_outputs ex) /\
    (table_data out = [] <-> fig_data (candlestick_chart out) = []).
Proof.
  intros yf today n ticker s e out R.
  assert (Hcases : out = empty_outputs \/ (exists ex, out = error_outputs ex) \/
                   (table_data out <> [] /\ fig_data (candlestick_chart out) <> [])).
  { destruct ticker as [t|]; [|injection R as <-; left; reflexivity].
    destruct (String.eqb_spec t "") as [->|Ht]; [injection R as <-; left; reflexivity|].
    rewrite nonempty_ticker_runs in R by assumption.
    destruct (fetch yf today t s e []) as [[[c m]|ex] log] eqn:Hf; cbn [fst] in R.
    - right. right.
      assert (F : fetched yf today t s e c m) by (unfold fetched; rewrite Hf; reflexivity).
      destruct (fetched_nonempty _ _ _ _ _ _ _ F) as [Hne _].
      split; [|exact (derive_has_trace _ _ _ _ R)].
      destruct (derive_parts _ _ _ _ R) as [d [tbl [Hser [_ [_ [Hround [Htab _]]]]]]].
      destruct (serializable_shape _ _ Hser) as [Dix _].
      destruct (round_columns_keeps _ _ _ Hround) as [Tix _].
      intros Hnil. apply (f_equal (@length record)) in Hnil.
      rewrite Htab, to_dict_records_length, Tix, Dix in Hnil. cbn [length index_len] in Hnil.
      unfold empty in Hne. apply orb_false_elim in Hne. destruct Hne as [Hne _].
      rewrite Hnil in Hne. discriminate Hne.
    - right. left. injection R as <-. exists ex. reflexivity. }
  destruct Hcases as [->|[[ex ->]|[Htab Hfig]]].
  - split; split; intros _; try reflexivity. left. reflexivity.
  - split; split; intros _; try reflexivity. right. exists ex. reflexivity.
  - split; split; intros H; try contradiction.
    + destruct H as [->|[ex ->]]; exfalso; apply Hfig; reflexivity.
Qed.

Lemma empty_table_iff_not_derived_witness :
  exists out,
    fst (run (provider_of (Raise (ProviderError "timeout")) (Ok (two_days None)))
             739923%Z 1%Z (Some "AAPL") None None) = Ok out /\
    (table_data out = [] <-> fig_data (candlestick_chart out) = []).
Proof.
  eexists. split; [vm_compute; reflexivity|].
  apply (empty_table_iff_not_derived
           (provider_of (Raise (ProviderError "timeout")) (Ok (two_days None)))
           739923%Z 1%Z (Some "AAPL") None None).
  reflexivity.
Defined.
